(** * Eye configuration lookup service: write worker and result renderer

    A shallow embedding of

    - [internal/eye.rest/util__respond.go]: [respond], [respondV1],
      [respondV2];
    - the configuration write handler: [process], [add], [remove],
      [update], [activate].

    Go values are modelled as follows.  An [error] is the text returned by
    its [Error()] method, a nil error is [None].  A pointer is an [option]
    ([None] is the nil pointer); dereferencing nil panics.  Integers are
    [Z].  A [time.Time] is an instant counted in nanoseconds.  Everything
    the handlers obtain from outside (clock, UUID source, JSON encoder,
    database) is read from an explicit environment, and everything they do
    to the outside (statements, commit, rollback, replies, goroutines) is
    recorded in order.

    The packages eye.msg and eye.proto/v2 are not among the sources.
    Their constructors, encoders and time functions are parameters
    ([RestDeps], [TimeCodec]); the methods of [msg.Result] and the two
    transaction helpers of the worker are modelled from the
    specification, each marked in its comment. *)

From Stdlib Require Import ZArith List String Bool Lia DecimalString.
Import ListNotations.
Local Open Scope string_scope.
Local Open Scope list_scope.
Local Open Scope Z_scope.

Set Implicit Arguments.

(** ** Panics *)

Inductive PanicReason : Type :=
| ExplicitPanic (message : string)   (* panic(`...`) written in the source *)
| NilDereference                     (* *p with p == nil *)
| IndexOutOfRange                    (* s[0] with len(s) == 0 *)
| MustFailed (err : string).         (* uuid.Must on a non-nil error *)

Inductive outcome (A : Type) : Type :=
| Done (a : A)
| Panicked (p : PanicReason).
Arguments Panicked {A} p.

Definition obind {A B} (m : outcome A) (f : A -> outcome B) : outcome B :=
  match m with
  | Done a => f a
  | Panicked p => Panicked p
  end.

Declare Scope outcome_scope.
Delimit Scope outcome_scope with outcome.
Notation "x <- m ;; k" := (obind m (fun x => k))
  (at level 100, m at next level, right associativity) : outcome_scope.
Notation "' p <- m ;; k" := (obind m (fun p => k))
  (at level 100, p pattern, m at next level, right associativity)
  : outcome_scope.

(** [*p] *)
Definition deref {A} (p : option A) : outcome A :=
  match p with
  | Some a => Done a
  | None => Panicked NilDereference
  end.

(** ** Go slices

    A slice is either nil or a (possibly empty) sequence of elements; the
    two are told apart by the JSON encoder only. *)

Inductive slice (A : Type) : Type :=
| nil_slice
| mk_slice (elements : list A).
Arguments nil_slice {A}.

Definition elems {A} (s : slice A) : list A :=
  match s with
  | nil_slice => []
  | mk_slice l => l
  end.

Definition len {A} (s : slice A) : Z := Z.of_nat (List.length (elems s)).

(** [append(s, xs...)]: nothing appended returns [s] itself. *)
Definition append {A} (s : slice A) (xs : list A) : slice A :=
  match xs with
  | [] => s
  | _ => mk_slice (elems s ++ xs)
  end.

(** ** Time *)

Definition Time := Z.

Definition Minute : Z := 60 * 1000000000.

(** [t.Add(d)], [t.Before(u)], [t.Equal(u)] *)
Definition Add (t : Time) (d : Z) : Time := t + d.
Definition Before (t u : Time) : bool := t <? u.
Definition Equal (t u : Time) : bool := t =? u.

(** ** eye.proto/v2: the external protocol *)

Module V2.

Record MetaInformation : Type := mkMetaInformation {
  ValidFrom : string;
  ValidUntil : string;
  ProvisionedAt : string;
  DeprovisionedAt : string;
  Tasks : list string
}.

(** [v2.MetaInformation{}] *)
Definition emptyMetaInformation : MetaInformation :=
  mkMetaInformation "" "" "" "" [].

(** [Body] stands for the thresholds and the other monitoring fields of
    a data revision, which the handlers carry around untouched. *)
Record Data : Type := mkData {
  DataID : string;
  Info : MetaInformation;
  Body : string
}.

Record Configuration : Type := mkConfiguration {
  ID : string;
  LookupID : string;
  HostID : Z;
  Metric : string;
  ActivatedAt : string;
  Data_ : list Data
}.

(** Registrations are opaque to the renderer. *)
Record Registration : Type := mkRegistration {
  RegistrationID : string
}.

End V2.

(** ** eye.msg: the internal protocol *)

Module Msg.

(** The protocol version is an integer; the panic messages of [respond]
    and [respondV1] name versions 0 and 1. *)
Definition ProtocolInvalid : Z := 0.
Definition ProtocolOne : Z := 1.
Definition ProtocolTwo : Z := 2.

(** The named sections, and any other value. *)
Inductive Section_ : Type :=
| SectionConfiguration
| SectionDeployment
| SectionLookup
| SectionRegistration
| SectionOther (name : string).

(** The named actions, and any other value. *)
Inductive Action_ : Type :=
| ActionAdd
| ActionRemove
| ActionUpdate
| ActionActivate
| ActionNop
| ActionList
| ActionOther (name : string).

(** Modelled from the spec: the status codes are HTTP-aligned; the msg
    package declaring the constants is not among the sources. *)
Definition ResultOK : Z := 200.
Definition ResultBadRequest : Z := 400.
Definition ResultServerError : Z := 500.

(** Modelled from the spec: the task names (rollout, deprovision,
    delete, clearing); the msg package declaring the constants is not
    among the sources. *)
Definition TaskRollout : string := "rollout".
Definition TaskDeprovision : string := "deprovision".
Definition TaskDelete : string := "delete".
Definition TaskClearing : string := "clearing".

Record Flags_ : Type := mkFlags {
  AlarmClearing : bool;
  CacheInvalidation : bool;
  ResetActivation : bool;
  SendDeploymentFeedback : bool
}.

Record Result : Type := mkResult {
  Version : Z;
  Section : Section_;
  Action : Action_;
  Code : Z;
  Error : option string;
  Configuration : list V2.Configuration;
  Registration : list V2.Registration;
  Flags : Flags_;
  FeedbackURL : string
}.

Definition set_Flags (r : Result) (f : Flags_) : Result :=
  mkResult (Version r) (Section r) (Action r) (Code r) (Error r)
           (Configuration r) (Registration r) f (FeedbackURL r).

Definition set_Status (r : Result) (code : Z) (err : option string)
  : Result :=
  mkResult (Version r) (Section r) (Action r) code err
           (Configuration r) (Registration r) (Flags r) (FeedbackURL r).

Definition set_Configuration (r : Result) (l : list V2.Configuration)
  : Result :=
  mkResult (Version r) (Section r) (Action r) (Code r) (Error r)
           l (Registration r) (Flags r) (FeedbackURL r).

End Msg.

(** ** The protocol result of eye.proto/v2 *)

Module Proto.

(** The three lists are pointers to slices. *)
Record Result : Type := mkResult {
  StatusCode : Z;
  Section : Msg.Section_;
  Action : Msg.Action_;
  Errors : option (slice string);
  Configurations : option (slice V2.Configuration);
  Registrations : option (slice V2.Registration)
}.

(** [var protoRes v2.Result]: the zero value, every pointer nil *)
Definition zero : Result :=
  mkResult 0 (Msg.SectionOther "") (Msg.ActionOther "") None None None.

Definition set_Section (p : Result) (s : Msg.Section_) : Result :=
  mkResult (StatusCode p) s (Action p) (Errors p)
           (Configurations p) (Registrations p).

Definition set_Action (p : Result) (a : Msg.Action_) : Result :=
  mkResult (StatusCode p) (Section p) a (Errors p)
           (Configurations p) (Registrations p).

Definition set_Errors (p : Result) (s : slice string) : Result :=
  mkResult (StatusCode p) (Section p) (Action p) (Some s)
           (Configurations p) (Registrations p).

Definition set_Configurations (p : Result) (s : slice V2.Configuration)
  : Result :=
  mkResult (StatusCode p) (Section p) (Action p) (Errors p)
           (Some s) (Registrations p).

Definition set_Registrations (p : Result) (s : slice V2.Registration)
  : Result :=
  mkResult (StatusCode p) (Section p) (Action p) (Errors p)
           (Configurations p) (Some s).

(** Modelled from the spec: [SetStatus] records the HTTP-aligned status
    code in the protocol result; the method is declared in eye.proto/v2,
    which is not among the sources. *)
Definition SetStatus (p : Result) (code : Z) : Result :=
  mkResult code (Section p) (Action p) (Errors p)
           (Configurations p) (Registrations p).

End Proto.

(** ** internal/eye.rest: the result renderer *)

(** A call that returns [(value, error)]. *)
Inductive fallible (A : Type) : Type :=
| Ok (a : A)
| Err (err : string).
Arguments Err {A} err.

(** What the renderer takes from packages that are not among the sources:
    the two constructors of eye.proto/v2, the v1 export of a result, and
    the JSON encoder. *)
Class RestDeps : Type := {
  NewConfigurationResult : Proto.Result;
  NewRegistrationResult : Proto.Result;
  marshalResult : Proto.Result -> fallible string;
  V1List : Type;
  ExportV1ConfigurationList : Msg.Result -> Z * string * V1List;
  marshalV1List : V1List -> fallible string
}.

(** Goroutines started by the renderer. *)
Inductive Goroutine : Type :=
| sendSomaFeedback (url feedback : string)
| clearCamsAlarm (r : Msg.Result).

(** What is written to the [http.ResponseWriter]. *)
Inductive Response : Type :=
| NothingWritten
| hardInternalError
| sendV1Result (code : Z) (errstr : string) (bjson : string)
| sendJSONReply (bjson : string)
| httpError (text : string) (status : Z)  (* http.Error(w, text, status) *)
| WriteHeaderOnly (status : Z).      (* WriteHeader(status); Write(nil) *)

Definition StatusNoContent : Z := 204.
Definition StatusBadRequest : Z := 400.
Definition StatusInternalServerError : Z := 500.

(** The observable outcome of rendering: the result as the renderer left
    it (it is passed by pointer and [respondV2] writes to its flags), the
    goroutines started, the protocol result handed to the JSON encoder
    (v2 only) and the response written. *)
Record Rendered : Type := mkRendered {
  result : Msg.Result;
  spawned : list Goroutine;
  protocol : option Proto.Result;
  response : Response
}.

Section Renderer.

Context {deps : RestDeps}.

Import Msg.
Local Open Scope outcome_scope.

Definition respondV1 (r : Msg.Result) : outcome Rendered :=
  let written := mkRendered r [] None in
  match Msg.Section r with
  | SectionRegistration =>
      Panicked (ExplicitPanic "API Protocol 1 does not have registrations")
  | _ =>
    match Msg.Section r with
    | SectionConfiguration =>
      match Msg.Action r with
      | ActionList =>
          let '(code, errstr, list) := ExportV1ConfigurationList r in
          match marshalV1List list with
          | Err _ => Done (written hardInternalError)
          | Ok bjson => Done (written (sendV1Result code errstr bjson))
          end
      | ActionRemove =>
          match Msg.Error r with
          | Some e =>
              if ResultServerError <=? Code r
              then Done (written (httpError e StatusInternalServerError))
              else if ResultBadRequest <=? Code r
              then Done (written (httpError e StatusBadRequest))
              else Done (written (WriteHeaderOnly StatusNoContent))
          | None => Done (written (WriteHeaderOnly StatusNoContent))
          end
      | _ => Done (written NothingWritten)
      end
    | _ => Done (written NothingWritten)
    end
  end.

Definition respondV2 (r : Msg.Result) : outcome Rendered :=
  (* create external protocol result *)
  let protoRes :=
    match Msg.Section r with
    | SectionConfiguration => NewConfigurationResult
    | SectionDeployment => NewConfigurationResult
    | SectionLookup => NewConfigurationResult
    | SectionRegistration => NewRegistrationResult
    | SectionOther _ => Proto.zero
    end in
  let feedback := "success" in
  (* record what was performed *)
  let protoRes := Proto.set_Section protoRes (Msg.Section r) in
  let protoRes := Proto.set_Action protoRes (Msg.Action r) in
  (* internal result contains an error, copy over into protocol result *)
  '(protoRes, feedback) <-
    match Msg.Error r with
    | Some e =>
        errs <- deref (Proto.Errors protoRes) ;;
        Done (Proto.set_Errors protoRes (append errs [e]), "failed")
    | None => Done (protoRes, feedback)
    end ;;
  (* copy internal result data into protocol result *)
  protoRes <-
    match Msg.Section r with
    | SectionConfiguration | SectionDeployment | SectionLookup =>
        cs <- deref (Proto.Configurations protoRes) ;;
        Done (Proto.set_Configurations protoRes
                (append cs (Msg.Configuration r)))
    | SectionRegistration =>
        rs <- deref (Proto.Registrations protoRes) ;;
        Done (Proto.set_Registrations protoRes
                (append rs (Msg.Registration r)))
    | SectionOther _ => Done protoRes
    end ;;
  (* trigger omitempty JSON encoding conditions if applicable *)
  let protoRes :=
    match Proto.Configurations protoRes with
    | Some cs =>
        if len cs =? 0
        then Proto.set_Configurations protoRes nil_slice
        else protoRes
    | None => protoRes
    end in
  let protoRes :=
    match Proto.Registrations protoRes with
    | Some rs =>
        if len rs =? 0
        then Proto.set_Registrations protoRes nil_slice
        else protoRes
    | None => protoRes
    end in
  (* set protocol result status *)
  let protoRes := Proto.SetStatus protoRes (Code r) in
  (* no results are exported on error, no cache invalidation and no
     alarm clearing for failed requests *)
  '(protoRes, r, feedback) <-
    (if 400 <=? Code r
     then
       _ <- deref (Proto.Configurations protoRes) ;;
       let protoRes := Proto.set_Configurations protoRes nil_slice in
       _ <- deref (Proto.Registrations protoRes) ;;
       let protoRes := Proto.set_Registrations protoRes nil_slice in
       let r := set_Flags r
                  (mkFlags (AlarmClearing (Flags r)) false
                           (ResetActivation (Flags r))
                           (SendDeploymentFeedback (Flags r))) in
       let r := set_Flags r
                  (mkFlags false (CacheInvalidation (Flags r))
                           (ResetActivation (Flags r))
                           (SendDeploymentFeedback (Flags r))) in
       Done (protoRes, r, "failed")
     else Done (protoRes, r, feedback)) ;;
  (* send deployment feedback to SOMA *)
  let feedbackCalls :=
    if SendDeploymentFeedback (Flags r)
    then [sendSomaFeedback (FeedbackURL r) feedback]
    else [] in
  (* the two cache invalidation branches are empty in the source *)
  (* send OK event to CAMS to clear alarmseries *)
  let clearingCalls :=
    if AlarmClearing (Flags r) then [clearCamsAlarm r] else [] in
  Done (mkRendered r (feedbackCalls ++ clearingCalls) (Some protoRes)
          match marshalResult protoRes with
          | Err _ => hardInternalError
          | Ok bjson => sendJSONReply bjson
          end).

(** [respond] is the output function for all requests; a version that
    matches no case falls out of the switch. *)
Definition respond (r : Msg.Result) : outcome Rendered :=
  if Version r =? ProtocolInvalid
  then Panicked (ExplicitPanic "API Protocol 0 is not valid")
  else if Version r =? ProtocolOne then respondV1 r
  else if Version r =? ProtocolTwo then respondV2 r
  else Done (mkRendered r [] None NothingWritten).

End Renderer.

(** ** internal/eye: the configuration write handler *)

(** The handlers read the action, the configuration, the lookup hash,
    the configuration task and the flags of a request.  Modelled from the
    spec: the version, the section and the feedback address are what
    [msg.FromRequest] hands on to the result; the msg package declaring
    the type is not among the sources. *)
Record Request : Type := mkRequest {
  ReqVersion : Z;
  ReqSection : Msg.Section_;
  ReqAction : Msg.Action_;
  ReqConfiguration : V2.Configuration;
  LookupHash : string;
  ConfigurationTask : string;
  ReqFlags : Msg.Flags_;
  ReqFeedbackURL : string
}.

Definition set_ReqConfiguration (q : Request) (c : V2.Configuration)
  : Request :=
  mkRequest (ReqVersion q) (ReqSection q) (ReqAction q) c (LookupHash q)
            (ConfigurationTask q) (ReqFlags q) (ReqFeedbackURL q).

Definition set_LookupID (c : V2.Configuration) (s : string)
  : V2.Configuration :=
  V2.mkConfiguration (V2.ID c) s (V2.HostID c) (V2.Metric c)
                     (V2.ActivatedAt c) (V2.Data_ c).

Definition set_ActivatedAt (c : V2.Configuration) (s : string)
  : V2.Configuration :=
  V2.mkConfiguration (V2.ID c) (V2.LookupID c) (V2.HostID c) (V2.Metric c)
                     s (V2.Data_ c).

Definition set_Data (c : V2.Configuration) (l : list V2.Data)
  : V2.Configuration :=
  V2.mkConfiguration (V2.ID c) (V2.LookupID c) (V2.HostID c) (V2.Metric c)
                     (V2.ActivatedAt c) l.

Definition set_DataID (d : V2.Data) (id : string) : V2.Data :=
  V2.mkData id (V2.Info d) (V2.Body d).

Definition set_Info (d : V2.Data) (i : V2.MetaInformation) : V2.Data :=
  V2.mkData (V2.DataID d) i (V2.Body d).

Definition set_ValidUntil (i : V2.MetaInformation) (s : string)
  : V2.MetaInformation :=
  V2.mkMetaInformation (V2.ValidFrom i) s (V2.ProvisionedAt i)
                       (V2.DeprovisionedAt i) (V2.Tasks i).

Definition set_DeprovisionedAt (i : V2.MetaInformation) (s : string)
  : V2.MetaInformation :=
  V2.mkMetaInformation (V2.ValidFrom i) (V2.ValidUntil i)
                       (V2.ProvisionedAt i) s (V2.Tasks i).

(** [l[0] = d] on a non-empty slice *)
Definition set_first {A} (l : list A) (d : A) : list A :=
  match l with
  | [] => []
  | _ :: rest => d :: rest
  end.

(** [%d] *)
Definition fmt_d (n : Z) : string := NilZero.string_of_int (Z.to_int n).

(** *** Methods of msg.Result

    The msg package is not among the sources; its methods are modelled
    here. *)

(** Modelled from the spec: [msg.FromRequest] starts the result of a
    request; the result carries the request's version, section, action,
    flags and feedback address, no status and no payload. *)
Definition FromRequest (q : Request) : Msg.Result :=
  Msg.mkResult (ReqVersion q) (ReqSection q) (ReqAction q) 0 None [] []
               (ReqFlags q) (ReqFeedbackURL q).

(** Modelled from the spec: [OK] sets the success status. *)
Definition OK (r : Msg.Result) : Msg.Result :=
  Msg.set_Status r Msg.ResultOK None.

(** Modelled from the spec: [ServerError] sets status 500 and attaches
    the error. *)
Definition ServerError (err : string) (r : Msg.Result) : Msg.Result :=
  Msg.set_Status r Msg.ResultServerError (Some err).

(** Modelled from the spec: [UnknownRequest] sets status 400; the spec
    does not give the error text. *)
Definition UnknownRequest (q : Request) (r : Msg.Result) : Msg.Result :=
  Msg.set_Status r Msg.ResultBadRequest (Some "Unknown requested action").

(** Modelled from the spec: a row count outside the expected set is an
    invariant violation, status 500 with an error; the spec does not give
    the error text. *)
Definition InvariantViolation (rows : Z) (r : Msg.Result) : Msg.Result :=
  Msg.set_Status r Msg.ResultServerError
    (Some ("Rollback: statement affected " ++ fmt_d rows ++ " rows")%string).

Definition expected (rows : Z) (allowed : list Z) : bool :=
  existsb (Z.eqb rows) allowed.

(** *** The environment of one request *)

Inductive Stmt : Type :=
| stmtConfigurationUpdate
| stmtNewLookupAdd
| stmtCfgAddID
| stmtCfgSelectValidForUpdate
| stmtCfgDataUpdateValidity
| stmtCfgAddData
| stmtProvAdd
| stmtActivationGet
| stmtProvFinalize
| stmtActivationDel
| stmtActivationSet.

Inductive SqlArg : Type :=
| ArgString (s : string)
| ArgInt (n : Z)
| ArgBytes (b : string)
| ArgArray (l : list string).    (* pq.Array *)

(** [QueryRow(...).Scan(...)] *)
Inductive QueryResult (A : Type) : Type :=
| ErrNoRows
| QueryErr (err : string)
| Row (a : A).
Arguments ErrNoRows {A}.
Arguments QueryErr {A} err.

(** What the database and the runtime answer while one request is
    handled.  [Exec] answers with the rows-affected count of the
    statement's [sql.Result] or with an error. *)
Record World : Type := mkWorld {
  Now : Time;
  NewV4 : fallible string;
  marshalConfiguration : V2.Configuration -> fallible string;
  Begin : option string;
  Exec : Stmt -> list SqlArg -> fallible Z;
  SelectValidForUpdate : string -> QueryResult (string * Time);
  ActivationGet : string -> QueryResult Time;
  CfgLoadActive : Request -> QueryResult V2.Configuration;
  Commit : option string
}.

(** The time and validity algebra of eye.proto/v2 and eye.msg, which are
    not among the sources. *)
Class TimeCodec : Type := {
  PosTimeInf : Time;
  ParseValidity : string -> Time;
  FormatValidity : Time -> string;
  ParseProvision : string -> Time;
  FormatProvision : Time -> string;
  RFC3339Milli : Time -> string       (* t.Format(RFC3339Milli) *)
}.

(** What a handler does to the outside, in order. *)
Inductive DbEvent : Type :=
| EvBegin
| EvExec (s : Stmt) (args : list SqlArg)
| EvQueryRow (s : Stmt) (args : list SqlArg)
| EvCfgLoadActive (configID : string)
| EvCommit
| EvRollback.

(** *** Handlers

    A handler works on the result [mr] and the request [q], both passed
    by pointer, and on the database.  It runs to its end, returns early,
    or panics. *)

Record St : Type := mkSt {
  mr : Msg.Result;
  req : Request;
  log : list DbEvent;
  sent : list Msg.Result      (* what was sent on q.Reply *)
}.

Inductive flow (A : Type) : Type :=
| Next (a : A)
| Returned
| Panic (p : PanicReason).
Arguments Returned {A}.
Arguments Panic {A} p.

Definition Handler (A : Type) : Type := St -> flow A * St.

Definition ret {A} (a : A) : Handler A := fun s => (Next a, s).

Definition bind {A B} (m : Handler A) (f : A -> Handler B) : Handler B :=
  fun s =>
    match m s with
    | (Next a, s') => f a s'
    | (Returned, s') => (Returned, s')
    | (Panic p, s') => (Panic p, s')
    end.

Declare Scope handler_scope.
Delimit Scope handler_scope with handler.
Notation "x <- m ;; k" := (bind m (fun x => k))
  (at level 100, m at next level, right associativity) : handler_scope.
Notation "' p <- m ;; k" := (bind m (fun p => k))
  (at level 100, p pattern, m at next level, right associativity)
  : handler_scope.
Notation "m ;; k" := (bind m (fun _ => k))
  (at level 100, right associativity) : handler_scope.

(** [return] *)
Definition return_ {A} : Handler A := fun s => (Returned, s).

Definition panic {A} (p : PanicReason) : Handler A := fun s => (Panic p, s).

(** A call of a handler: its [return] ends the call, a panic goes on. *)
Definition call (h : Handler unit) : Handler unit :=
  fun s =>
    match h s with
    | (Next _, s') => (Next tt, s')
    | (Returned, s') => (Next tt, s')
    | (Panic p, s') => (Panic p, s')
    end.

Definition emit (e : DbEvent) : Handler unit :=
  fun s => (Next tt, mkSt (mr s) (req s) (log s ++ [e]) (sent s)).

Definition getResult : Handler Msg.Result := fun s => (Next (mr s), s).

Definition onResult (f : Msg.Result -> Msg.Result) : Handler unit :=
  fun s => (Next tt, mkSt (f (mr s)) (req s) (log s) (sent s)).

Definition getRequest : Handler Request := fun s => (Next (req s), s).

Definition onConfiguration (f : V2.Configuration -> V2.Configuration)
  : Handler unit :=
  fun s =>
    (Next tt,
     mkSt (mr s) (set_ReqConfiguration (req s) (f (ReqConfiguration (req s))))
          (log s) (sent s)).

(** [q.Reply <- result] *)
Definition reply (r : Msg.Result) : Handler unit :=
  fun s => (Next tt, mkSt (mr s) (req s) (log s) (sent s ++ [r])).

(** [l[0]] *)
Definition first {A} (l : list A) : Handler A :=
  match l with
  | [] => panic IndexOutOfRange
  | a :: _ => ret a
  end.

(** [uuid.Must(...)] *)
Definition Must (u : fallible string) : Handler string :=
  match u with
  | Ok id => ret id
  | Err e => panic (MustFailed e)
  end.

(** [if err != nil { handle; return }] for a call returning a value and
    an error, and for a call returning an error only. *)
Definition try_ {A} (r : fallible A) (handle : string -> Handler unit)
  : Handler A :=
  match r with
  | Ok a => ret a
  | Err err => bind (handle err) (fun _ => return_)
  end.

Definition check (e : option string) (handle : string -> Handler unit)
  : Handler unit :=
  match e with
  | None => ret tt
  | Some err => bind (handle err) (fun _ => return_)
  end.

(** The zero [time.Time], January 1 of year 1. *)
Definition zeroTime : Time := -62135596800 * 1000000000.

Section Worker.

Context {codec : TimeCodec}.
Variable w : World.

Import Msg.
Local Open Scope handler_scope.

Definition conn_Begin : Handler (option string) :=
  emit EvBegin ;; ret (Begin w).

Definition tx_Exec (s : Stmt) (args : list SqlArg) : Handler (fallible Z) :=
  emit (EvExec s args) ;; ret (Exec w s args).

(** [stmt.Exec(...)] outside of a transaction *)
Definition stmt_Exec (s : Stmt) (args : list SqlArg)
  : Handler (fallible Z) :=
  emit (EvExec s args) ;; ret (Exec w s args).

Definition tx_Commit : Handler (option string) :=
  emit EvCommit ;; ret (Commit w).

Definition tx_Rollback : Handler unit := emit EvRollback.

(** Modelled from the spec: [mr.ExpectedRows(&res, n...)] compares the
    rows-affected count of [res] with the expected set and turns the
    result into an invariant violation when it is not in the set; the
    method is declared in eye.msg, which is not among the sources. *)
Definition ExpectedRows (res : Z) (allowed : list Z) : Handler bool :=
  if expected res allowed
  then ret true
  else onResult (InvariantViolation res) ;; ret false.

(** Modelled from the spec: [mr.RowCnt(rows, err)] accepts 0 rows
    (already active) and 1 row (newly activated) with status OK and
    reports whether the row was written; the method is declared in
    eye.msg, which is not among the sources. *)
Definition RowCnt (rows : Z) : Handler bool :=
  if rows =? 0 then onResult OK ;; ret false
  else if rows =? 1 then onResult OK ;; ret true
  else onResult (InvariantViolation rows) ;; ret false.

(** Modelled from the spec: [txCfgLoadActive] loads the currently
    active revision of the request's configuration inside the
    transaction; the helper is not among the sources. *)
Definition txCfgLoadActive (q : Request)
  : Handler (QueryResult V2.Configuration) :=
  emit (EvCfgLoadActive (V2.ID (ReqConfiguration q))) ;;
  ret (CfgLoadActive w q).

(** Modelled from the spec: [txSetDataValidity] writes the validity of
    a data row and expects exactly one row, as [add] does inline with
    the same statement; the helper is not among the sources. *)
Definition txSetDataValidity (validFrom validUntil : Time)
           (dataID : string) : Handler (bool * option string) :=
  r <- tx_Exec stmtCfgDataUpdateValidity
         [ArgString (RFC3339Milli validFrom);
          ArgString (RFC3339Milli validUntil);
          ArgString dataID] ;;
  match r with
  | Err err => ret (false, Some err)
  | Ok res => ok <- ExpectedRows res [1] ;; ret (ok, None)
  end.

Definition serverError (err : string) : Handler unit :=
  onResult (ServerError err).

Definition serverErrorRollback (err : string) : Handler unit :=
  onResult (ServerError err) ;; tx_Rollback.

(** [if !ok { tx.Rollback(); return }] *)
Definition orRollback (ok : bool) : Handler unit :=
  if negb ok then tx_Rollback ;; return_ else ret tt.

(** [add] inserts a configuration profile into the database. *)
Definition add : Handler unit :=
  (* fully populate Configuration before JSON encoding it *)
  let rolloutTS := Now w in
  dataID <- Must (NewV4 w) ;;
  q <- getRequest ;;
  onConfiguration (fun c => set_LookupID c (LookupHash q)) ;;
  onConfiguration (fun c => set_ActivatedAt c "unknown") ;;
  q <- getRequest ;;
  data <- first (V2.Data_ (ReqConfiguration q)) ;;
  let data := set_DataID data dataID in
  let data := set_Info data V2.emptyMetaInformation in
  onConfiguration (fun c => set_Data c [data]) ;;
  q <- getRequest ;;
  let cfg := ReqConfiguration q in
  jsonb <- try_ (marshalConfiguration w cfg) serverError ;;
  e <- conn_Begin ;;
  check e serverError ;;
  (* Register lookup hash *)
  r <- tx_Exec stmtNewLookupAdd
         [ArgString (LookupHash q); ArgInt (V2.HostID cfg);
          ArgString (V2.Metric cfg)] ;;
  res <- try_ r serverErrorRollback ;;
  ok <- ExpectedRows res [0; 1] ;;
  orRollback ok ;;
  (* Register configurationID with its lookup hash *)
  r <- tx_Exec stmtCfgAddID
         [ArgString (V2.ID cfg); ArgString (LookupHash q)] ;;
  res <- try_ r serverErrorRollback ;;
  ok <- ExpectedRows res [0; 1] ;;
  orRollback ok ;;
  (* database index ensures there is no overlap in validity ranges *)
  emit (EvQueryRow stmtCfgSelectValidForUpdate [ArgString (V2.ID cfg)]) ;;
  '(previousDataID, validFrom, skipInvalidatePrevious) <-
    match SelectValidForUpdate w (V2.ID cfg) with
    | ErrNoRows =>
        (* no still valid data is a non-error state *)
        ret (EmptyString, zeroTime, true)
    | QueryErr err => serverErrorRollback err ;; return_
    | Row (previousDataID, validFrom) =>
        ret (previousDataID, validFrom, false)
    end ;;
  (if negb skipInvalidatePrevious
   then
     r <- tx_Exec stmtCfgDataUpdateValidity
            [ArgString (RFC3339Milli validFrom);
             ArgString (RFC3339Milli rolloutTS);
             ArgString previousDataID] ;;
     res <- try_ r serverErrorRollback ;;
     ok <- ExpectedRows res [1] ;;
     orRollback ok
   else ret tt) ;;
  (* insert configuration data as valid from rolloutTS to infinity *)
  r <- tx_Exec stmtCfgAddData
         [ArgString dataID; ArgString (V2.ID cfg);
          ArgString (RFC3339Milli rolloutTS); ArgBytes jsonb] ;;
  res <- try_ r serverErrorRollback ;;
  ok <- ExpectedRows res [1] ;;
  orRollback ok ;;
  (* record provision request; the result of this statement is
     dropped ([_, err = ...]) and [res] still is the result of
     stmtCfgAddData *)
  r <- tx_Exec stmtProvAdd
         [ArgString dataID; ArgString (V2.ID cfg);
          ArgString (RFC3339Milli rolloutTS); ArgArray [TaskRollout]] ;;
  _ <- try_ r serverErrorRollback ;;
  ok <- ExpectedRows res [1] ;;
  orRollback ok ;;
  (* query if this configurationID is activated *)
  emit (EvQueryRow stmtActivationGet [ArgString (V2.ID cfg)]) ;;
  match ActivationGet w (V2.ID cfg) with
  | ErrNoRows => onConfiguration (fun c => set_ActivatedAt c "never")
  | QueryErr err => serverErrorRollback err ;; return_
  | Row activatedAt =>
      onConfiguration (fun c => set_ActivatedAt c (RFC3339Milli activatedAt))
  end ;;
  e <- tx_Commit ;;
  check e serverError ;;
  (* generate full reply *)
  let data :=
    set_Info data
      (V2.mkMetaInformation (RFC3339Milli rolloutTS) "infinity"
         (RFC3339Milli rolloutTS) "never" [TaskRollout]) in
  onConfiguration (fun c => set_Data c [data]) ;;
  q <- getRequest ;;
  onResult (fun mr =>
    set_Configuration mr (Configuration mr ++ [ReqConfiguration q])) ;;
  onResult OK.

(** The three labels of [remove]. *)
Definition commitTx : Handler unit :=
  e <- tx_Commit ;;
  check e serverError ;;
  onResult OK ;;
  return_.

Definition rollback : Handler unit := tx_Rollback ;; return_.

Definition abort (err : string) : Handler unit :=
  onResult (ServerError err) ;; rollback.

(** [remove] deletes a configuration from the database. *)
Definition remove : Handler unit :=
  q <- getRequest ;;
  let transactionTS := Now w in
  (* deprovision requests have a 15 minute grace window to send the
     new configuration data *)
  let task := TaskDeprovision in
  let validUntil := Add transactionTS (15 * Minute) in
  (* for final deletions, no 15 minute grace period *)
  let '(validUntil, task) :=
    if String.eqb (ConfigurationTask q) TaskDelete
    then (transactionTS, TaskDelete)
    else (validUntil, task) in
  (* record that this request had the clearing flag set *)
  let task :=
    if String.eqb task TaskDeprovision && AlarmClearing (ReqFlags q)
    then TaskClearing
    else task in
  (* open transaction *)
  e <- conn_Begin ;;
  check e serverError ;;
  (* check an active version of this configuration exists, then load it *)
  loaded <- txCfgLoadActive q ;;
  match loaded with
  | ErrNoRows =>
      (* that which does not exist can not be deleted *)
      commitTx
  | QueryErr err => abort err
  | Row configuration =>
      data <- first (V2.Data_ configuration) ;;
      (* a loaded validUntil that is not positive infinity is kept *)
      let validUntil :=
        if negb (Equal PosTimeInf
                       (ParseValidity (V2.ValidUntil (V2.Info data))))
        then ParseValidity (V2.ValidUntil (V2.Info data))
        else validUntil in
      (* an earlier deprovisioning timestamp is left in place and this
         transaction is backdated *)
      let transactionTS :=
        if Before (ParseProvision (V2.DeprovisionedAt (V2.Info data)))
                  transactionTS
        then ParseProvision (V2.DeprovisionedAt (V2.Info data))
        else transactionTS in
      let data :=
        set_Info data
          (set_ValidUntil (V2.Info data) (FormatValidity validUntil)) in
      let data :=
        set_Info data
          (set_DeprovisionedAt (V2.Info data)
             (FormatProvision transactionTS)) in
      let configuration :=
        set_Data configuration (set_first (V2.Data_ configuration) data) in
      onResult (fun mr =>
        set_Configuration mr (Configuration mr ++ [configuration])) ;;
      (* update validity records within the database *)
      '(ok, err) <-
        txSetDataValidity (ParseValidity (V2.ValidFrom (V2.Info data)))
                          (ParseValidity (V2.ValidUntil (V2.Info data)))
                          (V2.DataID data) ;;
      check err abort ;;
      (if negb ok then rollback else ret tt) ;;
      (* update provisioning record *)
      r <- tx_Exec stmtProvFinalize
             [ArgString (V2.DataID data);
              ArgString (RFC3339Milli transactionTS);
              ArgString task] ;;
      res <- try_ r abort ;;
      ok <- ExpectedRows res [1] ;;
      (if negb ok then rollback else ret tt) ;;
      (* remove the metric activation if required *)
      (if ResetActivation (ReqFlags q)
       then
         r <- tx_Exec stmtActivationDel
                [ArgString (V2.ID (ReqConfiguration q))] ;;
         res <- try_ r abort ;;
         (* 0: activation reset on inactive configurations is valid *)
         ok <- ExpectedRows res [0; 1] ;;
         (if negb ok then rollback else ret tt)
       else ret tt) ;;
      commitTx
  end.

(** [update] replaces a configuration. *)
Definition update : Handler unit :=
  q <- getRequest ;;
  jsonb <- try_ (marshalConfiguration w (ReqConfiguration q)) serverError ;;
  e <- conn_Begin ;;
  check e serverError ;;
  r <- tx_Exec stmtConfigurationUpdate
         [ArgString (V2.ID (ReqConfiguration q));
          ArgString (LookupHash q); ArgBytes jsonb] ;;
  count <- try_ r serverErrorRollback ;;
  (* statement should affect 1 row *)
  (if negb (count =? 1)
   then
     serverErrorRollback
       ("Rollback: update statement affected " ++ fmt_d count
        ++ " rows")%string ;;
     return_
   else ret tt) ;;
  e <- tx_Commit ;;
  check e serverError ;;
  onResult OK.

(** [activate] records a configuration activation; the statement is
    executed on the connection, no transaction is opened. *)
Definition activate : Handler unit :=
  q <- getRequest ;;
  r <- stmt_Exec stmtActivationSet [ArgString (V2.ID (ReqConfiguration q))] ;;
  res <- try_ r serverError ;;
  written <- RowCnt res ;;
  if written
  then onResult (fun mr =>
         set_Configuration mr (Configuration mr ++ [ReqConfiguration q]))
  else ret tt.

(** [process] is the request dispatcher called by Run. *)
Definition process (q : Request) : flow unit * St :=
  (match ReqAction q with
   | ActionAdd => call add
   | ActionRemove => call remove
   | ActionUpdate => call update
   | ActionActivate => call activate
   | ActionNop => onResult OK
   | _ => onResult (UnknownRequest q)
   end ;;
   result <- getResult ;;
   reply result)
    (mkSt (FromRequest q) q [] []).

End Worker.

(** ** Concrete instances, to run the definitions *)

Module Sample.

(** Constructors that allocate every list of the protocol result. *)
Definition allocated : Proto.Result :=
  Proto.mkResult 0 (Msg.SectionOther "") (Msg.ActionOther "")
                 (Some (mk_slice [])) (Some (mk_slice []))
                 (Some (mk_slice [])).

(** An encoder that writes the status code only. *)
Definition deps : RestDeps := {|
  NewConfigurationResult := allocated;
  NewRegistrationResult := allocated;
  marshalResult := fun p => Ok (fmt_d (Proto.StatusCode p));
  V1List := list V2.Configuration;
  ExportV1ConfigurationList := fun r =>
    (Msg.Code r,
     match Msg.Error r with Some e => e | None => "" end,
     Msg.Configuration r);
  marshalV1List := fun l => Ok (fmt_d (Z.of_nat (List.length l)))
|}.

(** Constructors that allocate the list of their own shape only. *)
Definition shaped : RestDeps := {|
  NewConfigurationResult :=
    Proto.mkResult 0 (Msg.SectionOther "") (Msg.ActionOther "")
                   (Some (mk_slice [])) (Some (mk_slice [])) None;
  NewRegistrationResult :=
    Proto.mkResult 0 (Msg.SectionOther "") (Msg.ActionOther "")
                   (Some (mk_slice [])) None (Some (mk_slice []));
  marshalResult := fun p => Ok (fmt_d (Proto.StatusCode p));
  V1List := list V2.Configuration;
  ExportV1ConfigurationList := fun r =>
    (Msg.Code r,
     match Msg.Error r with Some e => e | None => "" end,
     Msg.Configuration r);
  marshalV1List := fun l => Ok (fmt_d (Z.of_nat (List.length l)))
|}.

Definition noFlags : Msg.Flags_ := Msg.mkFlags false false false false.

Definition allFlags : Msg.Flags_ := Msg.mkFlags true true true true.

(** Instants: noon of June 1st 2018, a quarter, an hour and an hour
    and a quarter later, and the instant standing for positive
    infinity. *)
Definition noon : Time := 1527854400 * 1000000000.
Definition quarterPast : Time := 1527855300 * 1000000000.
Definition onePM : Time := 1527858000 * 1000000000.
Definition quarterPastOne : Time := 1527858900 * 1000000000.
Definition endOfTime : Time := 253402300799 * 1000000000.

Definition parseInstant (s : string) : Time :=
  if String.eqb s "2018-06-01T12:00:00.000Z" then noon
  else if String.eqb s "2018-06-01T12:15:00.000Z" then quarterPast
  else if String.eqb s "2018-06-01T13:00:00.000Z" then onePM
  else if String.eqb s "2018-06-01T13:15:00.000Z" then quarterPastOne
  else zeroTime.

Definition formatInstant (t : Time) : string :=
  if t =? noon then "2018-06-01T12:00:00.000Z"
  else if t =? quarterPast then "2018-06-01T12:15:00.000Z"
  else if t =? onePM then "2018-06-01T13:00:00.000Z"
  else if t =? quarterPastOne then "2018-06-01T13:15:00.000Z"
  else fmt_d t.

(** A codec that knows the four instants above and writes positive
    infinity as [infinity] for validity and [never] for provisioning. *)
Definition codec : TimeCodec := {|
  PosTimeInf := endOfTime;
  ParseValidity := fun s =>
    if String.eqb s "infinity" then endOfTime else parseInstant s;
  FormatValidity := fun t =>
    if t =? endOfTime then "infinity" else formatInstant t;
  ParseProvision := fun s =>
    if String.eqb s "never" then endOfTime else parseInstant s;
  FormatProvision := fun t =>
    if t =? endOfTime then "never" else formatInstant t;
  RFC3339Milli := formatInstant
|}.

Definition data1 : V2.Data :=
  V2.mkData "d-1"
    (V2.mkMetaInformation "2018-06-01T12:00:00.000Z" "infinity"
                          "2018-06-01T12:00:00.000Z" "never"
                          [Msg.TaskRollout])
    "thresholds".

Definition config1 : V2.Configuration :=
  V2.mkConfiguration "c-1" "hash" 7 "cpu.load" "never" [data1].

Definition request (a : Msg.Action_) (task : string) (f : Msg.Flags_)
           (c : V2.Configuration) : Request :=
  mkRequest Msg.ProtocolTwo Msg.SectionConfiguration a c "hash" task f
            "http://soma/feedback".

(** A database on which every statement succeeds on one row; [prov] is
    the row count of the provisioning insert, [active] the answer to
    the load of the active revision, [commit] the answer to commit. *)
Definition world (now : Time) (prov : Z)
           (active : QueryResult V2.Configuration)
           (commit : option string) : World := {|
  Now := now;
  NewV4 := Ok "d-2";
  marshalConfiguration := fun c => Ok (V2.ID c);
  Begin := None;
  Exec := fun s _ =>
    match s with
    | stmtProvAdd => Ok prov
    | _ => Ok 1
    end;
  SelectValidForUpdate := fun _ => ErrNoRows;
  ActivationGet := fun _ => ErrNoRows;
  CfgLoadActive := fun _ => active;
  Commit := commit
|}.

(** A revision whose deprovisioning was recorded at one o'clock, with
    the grace window running until a quarter past one. *)
Definition data2 : V2.Data :=
  V2.mkData "d-1"
    (V2.mkMetaInformation "2018-06-01T12:00:00.000Z"
                          "2018-06-01T13:15:00.000Z"
                          "2018-06-01T12:00:00.000Z"
                          "2018-06-01T13:00:00.000Z"
                          [Msg.TaskRollout; Msg.TaskDeprovision])
    "thresholds".

Definition config2 : V2.Configuration :=
  V2.mkConfiguration "c-1" "hash" 7 "cpu.load" "never" [data2].

(** The state in which [process] starts the handler of a request. *)
Definition start (q : Request) : St := mkSt (FromRequest q) q [] [].

(** A failed request with a payload and every flag set. *)
Definition failed : Msg.Result :=
  Msg.mkResult Msg.ProtocolTwo Msg.SectionConfiguration Msg.ActionAdd
               500 (Some "insert failed") [config1] [] allFlags
               "http://soma/feedback".

(** A v1 remove result with a server-error code and no error. *)
Definition silent500 : Msg.Result :=
  Msg.mkResult Msg.ProtocolOne Msg.SectionConfiguration Msg.ActionRemove
               500 None [] [] noFlags "".

(** A v1 remove result with a server error. *)
Definition removeFailed : Msg.Result :=
  Msg.mkResult Msg.ProtocolOne Msg.SectionConfiguration Msg.ActionRemove
               500 (Some "delete failed") [] [] noFlags "".

End Sample.

(** ** Predicates used in the statements *)

(** A constructor of eye.proto/v2 that allocates the three lists. *)
Definition allocates (p : Proto.Result) : Prop :=
  Proto.Errors p <> None /\ Proto.Configurations p <> None /\
  Proto.Registrations p <> None.

(** One of the four sections [respondV2] knows. *)
Definition named (s : Msg.Section_) : Prop :=
  match s with
  | Msg.SectionOther _ => False
  | _ => True
  end.

(** The requests on which the handler called by [process] panics: an
    add whose UUID cannot be drawn or whose Data list is empty, and a
    remove whose loaded configuration has an empty Data list. *)
Definition handler_panics (w : World) (q : Request) : bool :=
  match ReqAction q with
  | Msg.ActionAdd =>
      match NewV4 w with
      | Err _ => true
      | Ok _ =>
          match V2.Data_ (ReqConfiguration q) with
          | [] => true
          | _ :: _ => false
          end
      end
  | Msg.ActionRemove =>
      match Begin w with
      | Some _ => false
      | None =>
          match CfgLoadActive w q with
          | Row c =>
              match V2.Data_ c with
              | [] => true
              | _ :: _ => false
              end
          | _ => false
          end
      end
  | _ => false
  end.

(** The world [w] with the provisioning insert affecting [rows] rows. *)
Definition withProvisioningRows (w : World) (rows : Z) : World :=
  mkWorld (Now w) (NewV4 w) (marshalConfiguration w) (Begin w)
          (fun s args =>
             match s with
             | stmtProvAdd => Ok rows
             | _ => Exec w s args
             end)
          (SelectValidForUpdate w) (ActivationGet w) (CfgLoadActive w)
          (Commit w).

(** ** Concrete requests and worlds *)

Module Run.

Import Sample.

Definition addRequest : Request :=
  request Msg.ActionAdd "" noFlags config1.

Definition emptyAddRequest : Request :=
  request Msg.ActionAdd "" noFlags (set_Data config1 []).

Definition removeRequest : Request :=
  request Msg.ActionRemove "" noFlags config1.

Definition updateRequest : Request :=
  request Msg.ActionUpdate "" noFlags config1.

(** The provisioning insert writes no row, every other statement one. *)
Definition unwritten : World := world noon 0 ErrNoRows None.

(** Every statement writes one row and [c] is the active revision. *)
Definition healthy (c : V2.Configuration) : World :=
  world noon 1 (Row c) None.

(** Every statement writes one row and the commit fails. *)
Definition uncommitted : World :=
  world noon 1 (Row config1) (Some "commit failed").

(** The update statement writes two rows. *)
Definition doubled : World :=
  mkWorld noon (Ok "d-2") (fun c => Ok (V2.ID c)) None
          (fun _ _ => Ok 2) (fun _ => ErrNoRows) (fun _ => ErrNoRows)
          (fun _ => ErrNoRows) None.

End Run.

(** ** Further definitions used in the statements *)

Definition isNil {A} (o : option A) : bool :=
  match o with
  | None => true
  | Some _ => false
  end.

(** What the omitempty step of [respondV2] does to a list. *)
Definition omitempty {A} (s : slice A) : slice A :=
  if len s =? 0 then nil_slice else s.

(** The protocol result [respondV2] starts from. *)
Definition constructed {deps : RestDeps} (r : Msg.Result) : Proto.Result :=
  match Msg.Section r with
  | Msg.SectionRegistration => NewRegistrationResult
  | Msg.SectionOther _ => Proto.zero
  | _ => NewConfigurationResult
  end.

(** The sections whose configurations, and whose registrations,
    [respondV2] copies. *)
Definition rendersConfigurations (s : Msg.Section_) : bool :=
  match s with
  | Msg.SectionConfiguration | Msg.SectionDeployment | Msg.SectionLookup =>
      true
  | _ => false
  end.

Definition rendersRegistrations (s : Msg.Section_) : bool :=
  match s with
  | Msg.SectionRegistration => true
  | _ => false
  end.

(** Events that end, and that open, a transaction. *)
Definition closes (e : DbEvent) : bool :=
  match e with
  | EvCommit | EvRollback => true
  | _ => false
  end.

Definition opens (e : DbEvent) : bool :=
  match e with
  | EvBegin => true
  | _ => false
  end.

(** The actions whose handler works in a transaction. *)
Definition transactional (a : Msg.Action_) : bool :=
  match a with
  | Msg.ActionAdd | Msg.ActionRemove | Msg.ActionUpdate => true
  | _ => false
  end.

(** The configuration of an add request as [add] encodes it: lookup ID
    set, activation unknown, the first Data element only, with the drawn
    ID and without meta information. *)
Definition normalized (q : Request) (id : string) (d0 : V2.Data)
  : V2.Configuration :=
  V2.mkConfiguration (V2.ID (ReqConfiguration q)) (LookupHash q)
                     (V2.HostID (ReqConfiguration q))
                     (V2.Metric (ReqConfiguration q)) "unknown"
                     [V2.mkData id V2.emptyMetaInformation (V2.Body d0)].

(** The configuration a successful [add] reports. *)
Definition rolledOut {codec : TimeCodec} (w : World) (q : Request)
           (id : string) (d0 : V2.Data) (activatedAt : string)
  : V2.Configuration :=
  V2.mkConfiguration (V2.ID (ReqConfiguration q)) (LookupHash q)
    (V2.HostID (ReqConfiguration q)) (V2.Metric (ReqConfiguration q))
    activatedAt
    [V2.mkData id
       (V2.mkMetaInformation (RFC3339Milli (Now w)) "infinity"
          (RFC3339Milli (Now w)) "never" [Msg.TaskRollout])
       (V2.Body d0)].

(** The world [w] with the lookup registration affecting [lookup] rows
    and the binding of the configuration ID affecting [binding] rows. *)
Definition withRegistrationRows (w : World) (lookup binding : Z) : World :=
  mkWorld (Now w) (NewV4 w) (marshalConfiguration w) (Begin w)
          (fun s args =>
             match s with
             | stmtNewLookupAdd => Ok lookup
             | stmtCfgAddID => Ok binding
             | _ => Exec w s args
             end)
          (SelectValidForUpdate w) (ActivationGet w) (CfgLoadActive w)
          (Commit w).

(** ** Further concrete results, requests and worlds *)

Module More.

Import Sample.

(** A successful result with one configuration and every flag set. *)
Definition succeeded : Msg.Result :=
  Msg.mkResult Msg.ProtocolTwo Msg.SectionConfiguration Msg.ActionAdd
               200 None [config1] [] allFlags "http://soma/feedback".

(** A successful result without payload. *)
Definition emptyOK : Msg.Result :=
  Msg.mkResult Msg.ProtocolTwo Msg.SectionConfiguration Msg.ActionRemove
               200 None [] [] noFlags "".

(** A successful result of a section [respondV2] does not know. *)
Definition strange : Msg.Result :=
  Msg.mkResult Msg.ProtocolTwo (Msg.SectionOther "audit") Msg.ActionList
               200 None [config1] [] noFlags "".

(** A v1 result of an add on the Configuration section. *)
Definition addedV1 : Msg.Result :=
  Msg.mkResult Msg.ProtocolOne Msg.SectionConfiguration Msg.ActionAdd
               200 None [config1] [] allFlags "http://soma/feedback".

(** What [respondV2] leaves of [r] with the allocating constructors. *)
Definition rendered (r : Msg.Result) : Rendered :=
  match @respondV2 deps r with
  | Done out => out
  | Panicked _ => mkRendered r [] None NothingWritten
  end.

Definition protocolOf (r : Msg.Result) : Proto.Result :=
  match protocol (rendered r) with
  | Some p => p
  | None => Proto.zero
  end.

(** One o'clock; the configuration has a revision valid since noon. *)
Definition revised : World :=
  mkWorld onePM (Ok "d-2") (fun c => Ok (V2.ID c)) None
          (fun _ _ => Ok 1) (fun _ => Row ("d-1", noon)) (fun _ => Row noon)
          (fun _ => Row config1) None.

(** The validity update fails. *)
Definition frozen : World :=
  mkWorld noon (Ok "d-2") (fun c => Ok (V2.ID c)) None
          (fun s _ =>
             match s with
             | stmtCfgDataUpdateValidity => Err "deadlock detected"
             | _ => Ok 1
             end)
          (fun _ => ErrNoRows) (fun _ => ErrNoRows)
          (fun _ => Row config1) None.

(** The JSON encoder fails. *)
Definition unencodable : World :=
  mkWorld noon (Ok "d-2") (fun _ => Err "unsupported value") None
          (fun _ _ => Ok 1) (fun _ => ErrNoRows) (fun _ => ErrNoRows)
          (fun _ => Row config1) None.

Definition deleteRequest : Request :=
  request Msg.ActionRemove Msg.TaskDelete allFlags config1.

Definition activateRequest : Request :=
  request Msg.ActionActivate "" noFlags config1.

End More.

(** ** The sentinels as the specification reads them *)

Module Sentinels.

(** The instant standing for negative infinity. *)
Definition negTimeInf : Time := -253402300799 * 1000000000.

(** Modelled from the spec: the time and validity algebra with its
    sentinels, [infinity] for positive-time-infinity and [never] for
    negative-time-infinity, which is below every instant; the functions
    are declared in eye.proto/v2 and eye.msg, which are not among the
    sources.  Instants are written as by [Sample.formatInstant]. *)
Definition codec : TimeCodec := {|
  PosTimeInf := Sample.endOfTime;
  ParseValidity := fun s =>
    if String.eqb s "infinity" then Sample.endOfTime
    else Sample.parseInstant s;
  FormatValidity := fun t =>
    if t =? Sample.endOfTime then "infinity" else Sample.formatInstant t;
  ParseProvision := fun s =>
    if String.eqb s "never" then negTimeInf else Sample.parseInstant s;
  FormatProvision := fun t =>
    if t =? negTimeInf then "never" else Sample.formatInstant t;
  RFC3339Milli := Sample.formatInstant
|}.

End Sentinels.

(** ** Tactics *)

(** Case analysis on the innermost scrutinee. *)
Ltac break_innermost :=
  match goal with
  | |- context [match ?x with _ => _ end] =>
      lazymatch x with
      | context [match _ with _ => _ end] => fail
      | _ => destruct x eqn:?
      end
  end.

(** Unfolds the handler combinators. *)
Ltac run_handler :=
  cbv beta iota delta
    [bind ret call Must first getRequest getResult onConfiguration try_ check
     conn_Begin tx_Exec stmt_Exec emit ExpectedRows RowCnt orRollback
     tx_Rollback return_ panic serverError serverErrorRollback onResult
     tx_Commit commitTx rollback abort txCfgLoadActive txSetDataValidity
     reply];
  cbn.

(** The same on a hypothesis. *)
Ltac break_innermost_in H :=
  match type of H with
  | context [match ?x with _ => _ end] =>
      lazymatch x with
      | context [match _ with _ => _ end] => fail
      | _ => destruct x eqn:?
      end
  end.

Ltac run_handler_in H :=
  cbv beta iota delta
    [bind ret call Must first getRequest getResult onConfiguration try_ check
     conn_Begin tx_Exec stmt_Exec emit ExpectedRows RowCnt orRollback
     tx_Rollback return_ panic serverError serverErrorRollback onResult
     tx_Commit commitTx rollback abort txCfgLoadActive txSetDataValidity
     reply] in H;
  cbn in H.

(** Runs [process] in [H] down to one path. *)
Ltac run_process H :=
  unfold process, add, remove, update, activate in H;
  run_handler_in H;
  repeat (break_innermost_in H; cbn in H);
  inversion H; subst; clear H; cbn.

(** * Properties *)

Unset Implicit Arguments.

(** ** The renderer *)

Section RendererFacts.

Context {deps : RestDeps}.

(** What [respondV2] leaves behind for a status of 400 and more, when
    it gets to its end. *)
Lemma respondV2_error_shape (r : Msg.Result) (out : Rendered) :
  400 <= Msg.Code r -> respondV2 r = Done out ->
  exists p,
    protocol out = Some p /\
    Proto.Configurations p = Some nil_slice /\
    Proto.Registrations p = Some nil_slice /\
    result out =
      Msg.set_Flags r (Msg.mkFlags false false
                         (Msg.ResetActivation (Msg.Flags r))
                         (Msg.SendDeploymentFeedback (Msg.Flags r))) /\
    spawned out =
      (if Msg.SendDeploymentFeedback (Msg.Flags r)
       then [sendSomaFeedback (Msg.FeedbackURL r) "failed"] else []) /\
    response out =
      match marshalResult p with
      | Err _ => hardInternalError
      | Ok bjson => sendJSONReply bjson
      end.
Proof.
  intros Hcode H.
  apply Z.leb_le in Hcode.
  unfold respondV2 in H. rewrite Hcode in H.
  match type of H with
  | obind ?m _ = _ => destruct m as [[p1 fb]|]; [|discriminate H]
  end.
  cbv beta iota delta [obind] in H.
  match type of H with
  | match ?m with _ => _ end = _ => destruct m as [p2|]; [|discriminate H]
  end.
  match type of H with
  | context [Proto.SetStatus ?p ?c] => remember (Proto.SetStatus p c) as p3
  end.
  clear Heqp3.
  unfold deref in H.
  destruct (Proto.Configurations p3); [|discriminate H].
  cbn in H.
  destruct (Proto.Registrations p3); [|discriminate H].
  inversion H; subst; clear H; cbn.
  eexists; repeat split.
  destruct (Msg.SendDeploymentFeedback (Msg.Flags r)); reflexivity.
Qed.

(** With constructors that allocate the three lists [respondV2] gets to
    its end on every result of a known section. *)
Lemma respondV2_renders (r : Msg.Result) :
  allocates NewConfigurationResult -> allocates NewRegistrationResult ->
  named (Msg.Section r) ->
  exists out, respondV2 r = Done out.
Proof.
  destruct deps as [pc pr mR V1 ex mV]; cbn.
  destruct pc as [c1 s1 a1 [e1|] [cs1|] [rs1|]];
    destruct pr as [c2 s2 a2 [e2|] [cs2|] [rs2|]];
    unfold allocates; cbn; intros (Ec & Cc & Rc) (Er & Cr & Rr) Hn;
    try congruence.
  unfold respondV2; cbn.
  destruct (Msg.Section r); try contradiction; cbn;
    destruct (Msg.Error r); cbn;
    repeat match goal with
           | |- context [if ?b then _ else _] => destruct b; cbn
           end;
    eexists; reflexivity.
Qed.

(** The only panic of [respondV2] is the dereference of a list the
    constructor left nil. *)
Lemma respondV2_panics_nil (r : Msg.Result) (p : PanicReason) :
  respondV2 r = Panicked p -> p = NilDereference.
Proof.
  destruct deps as [pc pr mR V1 ex mV].
  destruct pc as [c1 s1 a1 [e1|] [cs1|] [rs1|]];
    destruct pr as [c2 s2 a2 [e2|] [cs2|] [rs2|]];
    unfold respondV2; cbn;
    destruct (Msg.Section r); cbn;
    destruct (Msg.Error r); cbn;
    repeat match goal with
           | |- context [if ?b then _ else _] => destruct b; cbn
           end;
    congruence.
Qed.

Lemma respondV1_done (r : Msg.Result) :
  Msg.Section r <> Msg.SectionRegistration ->
  exists resp, respondV1 r = Done (mkRendered r [] None resp).
Proof.
  intros Hs. unfold respondV1.
  destruct (Msg.Section r); try congruence; try (eexists; reflexivity).
  destruct (Msg.Action r); try (eexists; reflexivity).
  - destruct (Msg.Error r); [|eexists; reflexivity].
    destruct (_ <=? _); [eexists; reflexivity|].
    destruct (_ <=? _); eexists; reflexivity.
  - destruct (ExportV1ConfigurationList r) as [[code errstr] l].
    destruct (marshalV1List l); eexists; reflexivity.
Qed.

(** C1. Whenever [respondV2] renders a result whose status code is 400
    or more, the protocol result it encodes has empty (nil) lists of
    configurations and of registrations, the CacheInvalidation and
    AlarmClearing flags of the result are false afterwards, and no
    alarm-clearing goroutine is started. *)
Theorem respondV2_error_no_leak (r : Msg.Result) (out : Rendered) :
  400 <= Msg.Code r ->
  respondV2 r = Done out ->
  (exists p,
     protocol out = Some p /\
     Proto.Configurations p = Some nil_slice /\
     Proto.Registrations p = Some nil_slice /\
     response out =
       match marshalResult p with
       | Err _ => hardInternalError
       | Ok bjson => sendJSONReply bjson
       end) /\
  Msg.CacheInvalidation (Msg.Flags (result out)) = false /\
  Msg.AlarmClearing (Msg.Flags (result out)) = false /\
  (forall r', ~ In (clearCamsAlarm r') (spawned out)).
Proof.
  intros Hcode H.
  destruct (respondV2_error_shape r out Hcode H)
    as (p & Hp & Hc & Hr & Hres & Hsp & Hresp).
  split; [exists p; auto|].
  rewrite Hres, Hsp. cbn. repeat split.
  intros r' Hin.
  destruct (Msg.SendDeploymentFeedback (Msg.Flags r)); cbn in Hin.
  - destruct Hin as [Hin|[]]. discriminate Hin.
  - exact Hin.
Qed.

(** C2, as amended.  Whenever [respondV2] renders a result whose status
    code is 400 or more, the goroutines it starts are: one deployment
    feedback call with the token [failed] when SendDeploymentFeedback
    is set, and nothing otherwise. *)
Theorem respondV2_error_feedback (r : Msg.Result) (out : Rendered) :
  400 <= Msg.Code r ->
  respondV2 r = Done out ->
  spawned out =
    if Msg.SendDeploymentFeedback (Msg.Flags r)
    then [sendSomaFeedback (Msg.FeedbackURL r) "failed"]
    else [].
Proof.
  intros Hcode H.
  destruct (respondV2_error_shape r out Hcode H)
    as (p & _ & _ & _ & _ & Hsp & _).
  exact Hsp.
Qed.

(** C8. [respond] panics on dispatch exactly when the version is
    ProtocolInvalid, or the version is ProtocolOne and the section is
    Registration.  ProtocolOne on any other section renders, and
    ProtocolTwo is handed to [respondV2], which has no panic of its
    own. *)
Theorem respond_dispatch_panics (r : Msg.Result) :
  ((exists m, respond r = Panicked (ExplicitPanic m)) <->
   (Msg.Version r = Msg.ProtocolInvalid \/
    (Msg.Version r = Msg.ProtocolOne /\
     Msg.Section r = Msg.SectionRegistration))) /\
  (Msg.Version r = Msg.ProtocolOne ->
   Msg.Section r <> Msg.SectionRegistration ->
   exists out, respond r = Done out) /\
  (Msg.Version r = Msg.ProtocolTwo -> respond r = respondV2 r).
Proof.
  unfold respond, Msg.ProtocolInvalid, Msg.ProtocolOne, Msg.ProtocolTwo.
  destruct (Z.eqb_spec (Msg.Version r) 0) as [V0|V0];
    [|destruct (Z.eqb_spec (Msg.Version r) 1) as [V1|V1];
      [|destruct (Z.eqb_spec (Msg.Version r) 2) as [V2|V2]]].
  - split; [split|split]; intros; try lia.
    eexists; reflexivity.
  - split; [split|split]; intros; try lia.
    + destruct H as [m Hm]. right. split; [assumption|].
      destruct (Msg.Section r) eqn:Hs; try reflexivity;
        (destruct (respondV1_done r) as [resp Hr];
         [rewrite Hs; discriminate|rewrite Hr in Hm; discriminate]).
    + destruct H as [?|[_ Hs]]; [lia|].
      unfold respondV1. rewrite Hs. eexists; reflexivity.
    + destruct (respondV1_done r H0) as [resp Hr].
      rewrite Hr. eexists; reflexivity.
  - split; [split|split]; intros; try lia.
    + destruct H as [m Hm]. apply respondV2_panics_nil in Hm. discriminate.
    + reflexivity.
  - split; [split|split]; intros; try lia.
    destruct H as [m Hm]. discriminate.
Qed.

(** C9, as amended.  A v1 remove result on the Configuration section
    is rendered as HTTP 500 with the error text when it carries an
    error and a code of 500 or more, as HTTP 400 with the error text
    when it carries an error and a code from 400 up to 499, and as
    HTTP 204 without a body when it carries no error or a code below
    400. *)
Theorem respondV1_remove (r : Msg.Result) :
  Msg.Version r = Msg.ProtocolOne ->
  Msg.Section r = Msg.SectionConfiguration ->
  Msg.Action r = Msg.ActionRemove ->
  exists resp,
    respond r = Done (mkRendered r [] None resp) /\
    (forall e, Msg.Error r = Some e ->
               Msg.ResultServerError <= Msg.Code r ->
               resp = httpError e StatusInternalServerError) /\
    (forall e, Msg.Error r = Some e ->
               Msg.ResultBadRequest <= Msg.Code r < Msg.ResultServerError ->
               resp = httpError e StatusBadRequest) /\
    (Msg.Error r = None \/ Msg.Code r < Msg.ResultBadRequest ->
     resp = WriteHeaderOnly StatusNoContent).
Proof.
  intros Hv Hs Ha.
  unfold respond, respondV1. rewrite Hv, Hs, Ha. cbn.
  unfold Msg.ResultServerError, Msg.ResultBadRequest.
  destruct (Msg.Error r) as [e|].
  - destruct (Z.leb_spec 500 (Msg.Code r));
      [|destruct (Z.leb_spec 400 (Msg.Code r))];
      eexists; (split; [reflexivity|]); repeat split;
      intros; try congruence; try lia;
      repeat match goal with
             | H : _ \/ _ |- _ => destruct H
             end; try congruence; try lia.
  - eexists; split; [reflexivity|]. repeat split; intros; congruence.
Qed.

End RendererFacts.

(** Witness of C1: the failed request of [Sample], rendered with
    allocating constructors. *)
Lemma respondV2_error_no_leak_witness :
  exists out,
    @respondV2 Sample.deps Sample.failed = Done out /\
    Msg.CacheInvalidation (Msg.Flags Sample.failed) = true /\
    Msg.AlarmClearing (Msg.Flags Sample.failed) = true /\
    Msg.CacheInvalidation (Msg.Flags (result out)) = false /\
    Msg.AlarmClearing (Msg.Flags (result out)) = false /\
    (forall r', ~ In (clearCamsAlarm r') (spawned out)).
Proof.
  eexists. split; [vm_compute; reflexivity|].
  split; [reflexivity|]. split; [reflexivity|].
  eapply (@respondV2_error_no_leak Sample.deps Sample.failed).
  - cbv; discriminate.
  - vm_compute; reflexivity.
Defined.

(** Counterexample to C2 as stated: the failed request of [Sample] has
    SendDeploymentFeedback set, and a feedback call is started. *)
Lemma respondV2_error_feedback_sent :
  ~ (forall (deps : RestDeps) (r : Msg.Result) (out : Rendered),
        400 <= Msg.Code r ->
        @respondV2 deps r = Done out ->
        forall url token, ~ In (sendSomaFeedback url token) (spawned out)).
Proof.
  intros H.
  refine (H Sample.deps Sample.failed _ _ eq_refl
            "http://soma/feedback" "failed" _).
  - cbv; discriminate.
  - left; reflexivity.
Qed.

(** Witness of C2 as amended. *)
Lemma respondV2_error_feedback_witness :
  exists out,
    @respondV2 Sample.deps Sample.failed = Done out /\
    spawned out = [sendSomaFeedback "http://soma/feedback" "failed"].
Proof.
  eexists. split; [vm_compute; reflexivity|].
  apply (@respondV2_error_feedback Sample.deps Sample.failed).
  - cbv; discriminate.
  - vm_compute; reflexivity.
Defined.

(** Counterexample to C9 as stated: a remove result with code 500 and a
    nil error is rendered as 204. *)
Lemma respondV1_remove_silent500 :
  Msg.ResultServerError <= Msg.Code Sample.silent500 /\
  @respond Sample.deps Sample.silent500 =
    Done (mkRendered Sample.silent500 [] None
                     (WriteHeaderOnly StatusNoContent)).
Proof.
  split; [cbv; discriminate|reflexivity].
Qed.

(** Witness of C9 as amended. *)
Lemma respondV1_remove_witness :
  exists resp,
    @respond Sample.deps Sample.removeFailed =
      Done (mkRendered Sample.removeFailed [] None resp) /\
    resp = httpError "delete failed" StatusInternalServerError.
Proof.
  destruct (@respondV1_remove Sample.deps Sample.removeFailed
              eq_refl eq_refl eq_refl) as (resp & Hr & H500 & _).
  exists resp. split; [exact Hr|].
  apply H500; [reflexivity|cbv; discriminate].
Defined.

(** An error result is rendered only with constructors that allocate
    both payload lists of the section's protocol result. *)
Lemma respondV2_error_requires_lists {deps : RestDeps}
      (r : Msg.Result) (out : Rendered) :
  400 <= Msg.Code r -> respondV2 r = Done out ->
  let protoRes :=
    match Msg.Section r with
    | Msg.SectionRegistration => NewRegistrationResult
    | _ => NewConfigurationResult
    end in
  named (Msg.Section r) /\
  Proto.Configurations protoRes <> None /\
  Proto.Registrations protoRes <> None.
Proof.
  intros Hcode. apply Z.leb_le in Hcode.
  destruct deps as [pc pr mR V1 ex mV].
  destruct pc as [c1 s1 a1 [e1|] [cs1|] [rs1|]];
    destruct pr as [c2 s2 a2 [e2|] [cs2|] [rs2|]];
    unfold respondV2; cbn; rewrite Hcode;
    destruct (Msg.Section r); cbn;
    destruct (Msg.Error r); cbn;
    repeat match goal with
           | |- context [if ?b then _ else _] => destruct b; cbn
           end;
    intros H; try discriminate H; repeat split; discriminate.
Qed.

(** With constructors that allocate the list of their own shape only,
    the failed request of [Sample] is not rendered. *)
Example respondV2_shaped_error :
  @respondV2 Sample.shaped Sample.failed = Panicked NilDereference.
Proof. reflexivity. Qed.

(** ** The write handler *)

Section WorkerFacts.

Context {codec : TimeCodec}.

(** The row count of the provisioning insert has no influence on
    [add]. *)
Lemma add_ignores_provisioning_rows (w : World) (n m : Z) (s : St) :
  add (withProvisioningRows w n) s = add (withProvisioningRows w m) s.
Proof.
  unfold add. run_handler.
  repeat (break_innermost; cbn; try reflexivity).
Qed.

(** C10. [add] reads [q.Configuration.Data[0]] before it validates
    anything or touches the database.  The read is out of range
    exactly when the Data list is empty (and the data ID was drawn, which
    comes first); on an empty list [add] panics with the result and
    the database untouched, so [add] gets to its end or to a [return]
    only on requests with at least one Data element. *)
Theorem add_first_data (w : World) (s : St) :
  ((exists s', add w s = (Panic IndexOutOfRange, s')) <->
   (V2.Data_ (ReqConfiguration (req s)) = [] /\
    exists id, NewV4 w = Ok id)) /\
  (V2.Data_ (ReqConfiguration (req s)) = [] ->
   exists p s', add w s = (Panic p, s') /\
                log s' = log s /\ mr s' = mr s /\ sent s' = sent s) /\
  (forall f s', add w s = (f, s') -> (forall p, f <> Panic p) ->
                V2.Data_ (ReqConfiguration (req s)) <> []).
Proof.
  unfold add. run_handler.
  destruct (NewV4 w) as [id|e]; cbn;
    (destruct (V2.Data_ (ReqConfiguration (req s))) as [|d rest] eqn:Hd;
     cbn).
  - split; [|split].
    + split; [intros _; split; [reflexivity|eauto]|intros _; eauto].
    + intros _. do 2 eexists. split; [reflexivity|]. cbn. auto.
    + intros f s' H Hp. inversion H; subst.
      exfalso. eapply Hp; reflexivity.
  - split; [|split]; try (intros; discriminate).
    split; [|intros [? _]; discriminate].
    intros [s' H]. exfalso. revert H.
    repeat (break_innermost; cbn); discriminate.
  - split; [|split].
    + split; [intros [s' H]; discriminate|intros [_ [i Hi]]; discriminate].
    + intros _. do 2 eexists. split; [reflexivity|]. cbn. auto.
    + intros f s' H Hp. inversion H; subst.
      exfalso. eapply Hp; reflexivity.
  - split; [|split]; try (intros; discriminate).
    split; [intros [s' H]; discriminate|intros [? _]; discriminate].
Qed.

(** C7, as amended.  [process] sends exactly one result, the result of
    the handler, on the reply sink of every request on which the
    handler does not panic, and sends nothing when the handler panics;
    a request whose action is none of Add, Remove, Update, Activate and
    Nop gets the UnknownRequest result. *)
Theorem process_replies (w : World) (q : Request) :
  (forall f s, process w q = (f, s) ->
     if handler_panics w q
     then (exists p, f = Panic p) /\ sent s = []
     else f = Next tt /\ sent s = [mr s]) /\
  (match ReqAction q with
   | Msg.ActionAdd | Msg.ActionRemove | Msg.ActionUpdate
   | Msg.ActionActivate | Msg.ActionNop => True
   | _ =>
       process w q =
         (Next tt,
          mkSt (UnknownRequest q (FromRequest q)) q []
               [UnknownRequest q (FromRequest q)])
   end).
Proof.
  split.
  - intros f s. unfold process, handler_panics.
    destruct (ReqAction q); unfold add, remove, update, activate;
      run_handler;
      repeat (break_innermost; cbn);
      intros H; inversion H; subst; cbn; eauto.
  - destruct (ReqAction q) eqn:Ha; auto;
      unfold process; rewrite Ha; reflexivity.
Qed.

(** C6, as amended.  Once the configuration is encoded, the
    transaction is open and the update statement has run: a row count
    N other than 1 gives a ServerError with the message
    [Rollback: update statement affected N rows] and a rollback; a row
    count of 1 gives a commit, and then OK when the commit succeeds
    and a ServerError with the commit's error when it fails.  So
    [update] succeeds if and only if the statement affects exactly one
    row and the commit succeeds. *)
Theorem update_row_count (w : World) (s : St) (jsonb : string)
        (count : Z) :
  let q := req s in
  let exec :=
    EvExec stmtConfigurationUpdate
           [ArgString (V2.ID (ReqConfiguration q));
            ArgString (LookupHash q); ArgBytes jsonb] in
  marshalConfiguration w (ReqConfiguration q) = Ok jsonb ->
  Begin w = None ->
  Exec w stmtConfigurationUpdate
       [ArgString (V2.ID (ReqConfiguration q));
        ArgString (LookupHash q); ArgBytes jsonb] = Ok count ->
  (count <> 1 ->
   update w s =
     (Returned,
      mkSt (ServerError
              ("Rollback: update statement affected " ++ fmt_d count
               ++ " rows")%string (mr s))
           q (log s ++ [EvBegin; exec; EvRollback]) (sent s))) /\
  (count = 1 ->
   update w s =
     match Commit w with
     | None =>
         (Next tt,
          mkSt (OK (mr s)) q (log s ++ [EvBegin; exec; EvCommit]) (sent s))
     | Some err =>
         (Returned,
          mkSt (ServerError err (mr s)) q
               (log s ++ [EvBegin; exec; EvCommit]) (sent s))
     end) /\
  (Msg.Code (mr (snd (update w s))) = Msg.ResultOK <->
   count = 1 /\ Commit w = None).
Proof.
  intros q exec Hm Hb He. subst q exec.
  unfold update. run_handler. rewrite Hm; cbn. rewrite Hb; cbn.
  rewrite He; cbn.
  destruct (Z.eqb_spec count 1) as [H1|H1]; cbn.
  - destruct (Commit w) as [err|]; cbn;
      rewrite <- ?app_assoc; cbn; (split; [|split]);
      try (intros; congruence); try reflexivity.
    + split; [discriminate|intros [_ ?]; discriminate].
    + split; auto.
  - rewrite <- ?app_assoc; cbn. split; [|split]; try (intros; congruence).
    split; [discriminate|intros [? _]; congruence].
Qed.


(** C5, as amended.  A remove at transaction time T that finds an
    active revision returns it with ValidUntil [vu] and DeprovisionedAt
    [dp], where [vu] is at most the pre-call ValidUntil and at least
    the minimum of T and the pre-call ValidUntil, and [dp] is the
    minimum of T and the pre-call DeprovisionedAt: at most T and at
    most the pre-call value.  The clock is taken to be at least 15
    minutes before positive infinity. *)
Theorem remove_monotone (w : World) (s : St) (cfg : V2.Configuration)
        (data : V2.Data) (rest : list V2.Data) :
  let q := req s in
  let T := Now w in
  let U0 := ParseValidity (V2.ValidUntil (V2.Info data)) in
  let D0 := ParseProvision (V2.DeprovisionedAt (V2.Info data)) in
  Begin w = None ->
  CfgLoadActive w q = Row cfg ->
  V2.Data_ cfg = data :: rest ->
  Add T (15 * Minute) <= PosTimeInf ->
  exists vu dp : Time,
    Msg.Configuration (mr (snd (remove w s))) =
      Msg.Configuration (mr s) ++
      [set_Data cfg
         (set_Info data
            (set_DeprovisionedAt
               (set_ValidUntil (V2.Info data) (FormatValidity vu))
               (FormatProvision dp)) :: rest)] /\
    vu <= U0 /\ Z.min T U0 <= vu /\
    dp <= T /\ dp <= D0 /\ dp = Z.min T D0.
Proof.
  intros q T U0 D0 Hbegin Hload Hdata Hclock.
  subst q.
  unfold remove. run_handler.
  rewrite Hbegin; cbn. rewrite Hload; cbn. rewrite Hdata; cbn.
  fold T U0 D0.
  unfold Equal, Before, Add, Minute in *.
  exists (if negb (PosTimeInf =? U0) then U0
          else if String.eqb (ConfigurationTask (req s)) Msg.TaskDelete
               then T else T + 15 * (60 * 1000000000)).
  exists (if D0 <? T then D0 else T).
  split.
  - destruct (String.eqb (ConfigurationTask (req s)) Msg.TaskDelete); cbn;
      repeat (break_innermost; cbn; try reflexivity).
  - destruct (Z.eqb_spec PosTimeInf U0); cbn;
      destruct (Z.ltb_spec D0 T);
      destruct (String.eqb (ConfigurationTask (req s)) Msg.TaskDelete);
      lia.
Qed.

End WorkerFacts.

(** ** Runs on concrete requests *)

(** C3.  The provisioning insert of this add affects no row; [add] does
    not notice, commits and answers OK.  The check after the insert
    looks at the row count of the data insert before it. *)
Theorem add_commits_unwritten_provisioning :
  exists (s : St) (args : list SqlArg),
    @process Sample.codec Run.unwritten Run.addRequest = (Next tt, s) /\
    In (EvExec stmtProvAdd args) (log s) /\
    Exec Run.unwritten stmtProvAdd args = Ok 0 /\
    Msg.Code (mr s) = Msg.ResultOK /\
    Msg.Error (mr s) = None /\
    In EvCommit (log s) /\
    ~ In EvRollback (log s).
Proof.
  eexists. eexists.
  split; [vm_compute; reflexivity|].
  split; [cbn; do 5 right; left; reflexivity|].
  split; [reflexivity|]. split; [reflexivity|]. split; [reflexivity|].
  split; [cbn; tauto|].
  cbn. intros H.
  repeat match goal with
         | H : _ \/ _ |- _ => destruct H as [H|H]; try discriminate H
         end.
  exact H.
Qed.

(** Witness of C10: an add request without Data panics on the index,
    before any statement. *)
Lemma add_first_data_witness :
  exists s',
    @add Sample.codec Run.unwritten (Sample.start Run.emptyAddRequest) =
      (Panic IndexOutOfRange, s') .
Proof.
  apply (proj1 (@add_first_data Sample.codec Run.unwritten
                  (Sample.start Run.emptyAddRequest))).
  split; [reflexivity|].
  exists "d-2". reflexivity.
Defined.

(** Counterexample to C7 as stated: the worker processes an add request
    without Data and sends no result. *)
Lemma process_empty_add_no_reply :
  exists s,
    @process Sample.codec Run.unwritten Run.emptyAddRequest =
      (Panic IndexOutOfRange, s) /\
    sent s = [] /\ log s = [].
Proof.
  eexists. split; [vm_compute; reflexivity|]. split; reflexivity.
Qed.

(** Witness of C7 as amended. *)
Lemma process_replies_witness :
  exists s,
    @process Sample.codec Run.unwritten Run.addRequest = (Next tt, s) /\
    sent s = [mr s].
Proof.
  eexists. split; [vm_compute; reflexivity|].
  apply (proj1 (@process_replies Sample.codec Run.unwritten Run.addRequest)
               (Next tt)).
  vm_compute; reflexivity.
Defined.

(** Counterexample to C6 as stated: the update statement affects exactly
    one row, the commit fails, and [update] answers with a server
    error. *)
Lemma update_one_row_commit_fails :
  exists s,
    Exec Run.uncommitted stmtConfigurationUpdate
         [ArgString "c-1"; ArgString "hash"; ArgBytes "c-1"] = Ok 1 /\
    @process Sample.codec Run.uncommitted Run.updateRequest = (Next tt, s) /\
    log s =
      [EvBegin;
       EvExec stmtConfigurationUpdate
              [ArgString "c-1"; ArgString "hash"; ArgBytes "c-1"];
       EvCommit] /\
    Msg.Code (mr s) = Msg.ResultServerError /\
    Msg.Error (mr s) = Some "commit failed".
Proof.
  eexists. split; [reflexivity|].
  split; [vm_compute; reflexivity|].
  repeat split.
Qed.

(** Witness of C6 as amended: two rows affected. *)
Lemma update_row_count_witness :
  update Run.doubled (Sample.start Run.updateRequest) =
    (Returned,
     mkSt (ServerError "Rollback: update statement affected 2 rows"
                       (FromRequest Run.updateRequest))
          Run.updateRequest
          [EvBegin;
           EvExec stmtConfigurationUpdate
                  [ArgString "c-1"; ArgString "hash"; ArgBytes "c-1"];
           EvRollback]
          []).
Proof.
  refine (proj1 (update_row_count Run.doubled
                   (Sample.start Run.updateRequest) "c-1" 2
                   eq_refl eq_refl eq_refl) _).
  discriminate.
Defined.



(** Counterexample to C5 as stated: the active revision carries a
    deprovisioning instant of one o'clock, the remove runs at noon, and
    the revision comes back deprovisioned at noon, before its pre-call
    value. *)
Lemma remove_deprovisioning_moves_back :
  exists s c d,
    @remove Sample.codec (Run.healthy Sample.config2)
            (Sample.start Run.removeRequest) = (Returned, s) /\
    Msg.Configuration (mr s) = [c] /\ V2.Data_ c = [d] /\
    V2.DeprovisionedAt (V2.Info Sample.data2) = "2018-06-01T13:00:00.000Z" /\
    V2.DeprovisionedAt (V2.Info d) = "2018-06-01T12:00:00.000Z" /\
    @ParseProvision Sample.codec (V2.DeprovisionedAt (V2.Info d)) <
    @ParseProvision Sample.codec (V2.DeprovisionedAt (V2.Info Sample.data2)).
Proof.
  do 3 eexists. split; [vm_compute; reflexivity|].
  repeat split.
Qed.

(** Witness of C5 as amended, on the same run. *)
Lemma remove_monotone_witness :
  exists vu dp : Time,
    Msg.Configuration
      (mr (snd (@remove Sample.codec (Run.healthy Sample.config2)
                        (Sample.start Run.removeRequest)))) =
      [set_Data Sample.config2
         [set_Info Sample.data2
            (set_DeprovisionedAt
               (set_ValidUntil (V2.Info Sample.data2)
                               (@FormatValidity Sample.codec vu))
               (@FormatProvision Sample.codec dp))]] /\
    vu <= Sample.quarterPastOne /\
    Z.min Sample.noon Sample.quarterPastOne <= vu /\
    dp <= Sample.noon /\ dp <= Sample.onePM /\
    dp = Z.min Sample.noon Sample.onePM.
Proof.
  apply (@remove_monotone Sample.codec (Run.healthy Sample.config2)
           (Sample.start Run.removeRequest) Sample.config2 Sample.data2 []);
    try reflexivity.
  cbv; discriminate.
Defined.

(** Witness of C8: a v1 result on the Registration section. *)
Lemma respond_dispatch_panics_witness :
  exists m,
    @respond Sample.deps
       (Msg.mkResult Msg.ProtocolOne Msg.SectionRegistration Msg.ActionList
                     200 None [] [] Sample.noFlags "") =
      Panicked (ExplicitPanic m).
Proof.
  apply (proj2 (proj1 (@respond_dispatch_panics Sample.deps _))).
  right. split; reflexivity.
Defined.

(** ** Scenarios *)

(** First add of a configuration: status 200, one configuration with
    [activatedAt] never, valid from the rollout instant to infinity, task
    rollout. *)
Example first_add :
  exists s c d,
    @process Sample.codec (Run.healthy Sample.config1) Run.addRequest =
      (Next tt, s) /\
    Msg.Code (mr s) = Msg.ResultOK /\
    Msg.Configuration (mr s) = [c] /\
    V2.ActivatedAt c = "never" /\
    V2.Data_ c = [d] /\
    V2.Info d =
      V2.mkMetaInformation "2018-06-01T12:00:00.000Z" "infinity"
                           "2018-06-01T12:00:00.000Z" "never" ["rollout"].
Proof.
  do 3 eexists. split; [vm_compute; reflexivity|]. repeat split.
Qed.

(** Remove with TaskDelete: no grace window, the revision ends at the
    transaction instant and the task is delete. *)
Example remove_with_delete :
  exists s c d,
    @process Sample.codec (Run.healthy Sample.config1)
       (Sample.request Msg.ActionRemove Msg.TaskDelete Sample.noFlags
                       Sample.config1) = (Next tt, s) /\
    Msg.Code (mr s) = Msg.ResultOK /\
    Msg.Configuration (mr s) = [c] /\
    V2.Data_ c = [d] /\
    V2.ValidUntil (V2.Info d) = "2018-06-01T12:00:00.000Z" /\
    V2.DeprovisionedAt (V2.Info d) = "2018-06-01T12:00:00.000Z" /\
    In (EvExec stmtProvFinalize
               [ArgString "d-1"; ArgString "2018-06-01T12:00:00.000Z";
                ArgString "delete"])
       (log s).
Proof.
  do 3 eexists. split; [vm_compute; reflexivity|].
  repeat split. cbn. do 3 right. left. reflexivity.
Qed.

(** Remove of a configuration without an active revision: the empty
    transaction is committed and the result is OK without payload. *)
Example remove_nothing :
  @process Sample.codec (Sample.world Sample.noon 1 ErrNoRows None)
     Run.removeRequest =
    (Next tt,
     mkSt (OK (FromRequest Run.removeRequest)) Run.removeRequest
          [EvBegin; EvCfgLoadActive "c-1"; EvCommit]
          [OK (FromRequest Run.removeRequest)]).
Proof. reflexivity. Qed.

(** A remove whose loaded configuration has no Data panics with the
    transaction open: nothing is committed, rolled back or sent. *)
Example remove_empty_revision :
  exists s,
    @process Sample.codec (Run.healthy (set_Data Sample.config1 []))
       Run.removeRequest = (Panic IndexOutOfRange, s) /\
    log s = [EvBegin; EvCfgLoadActive "c-1"] /\ sent s = [].
Proof.
  eexists. split; [vm_compute; reflexivity|]. split; reflexivity.
Qed.

(** * Further properties *)

(** ** The v2 renderer on every status *)

Section RendererMore.

Context {deps : RestDeps}.

(** The goroutines of a completed [respondV2], and the result when the
    status is below 400. *)
Lemma respondV2_spawned (r : Msg.Result) (out : Rendered) :
  respondV2 r = Done out ->
  spawned out =
    (if Msg.SendDeploymentFeedback (Msg.Flags r)
     then [sendSomaFeedback (Msg.FeedbackURL r)
             (if isNil (Msg.Error r) && (Msg.Code r <? 400)
              then "success" else "failed")]
     else []) ++
    (if Msg.AlarmClearing (Msg.Flags r) && (Msg.Code r <? 400)
     then [clearCamsAlarm r] else []) /\
  (Msg.Code r < 400 -> result out = r).
Proof.
  destruct (Z.ltb_spec (Msg.Code r) 400) as [Hlt|Hge].
  - assert (Hc : (400 <=? Msg.Code r) = false) by (apply Z.leb_gt; exact Hlt).
    unfold respondV2. rewrite Hc.
    match goal with
    | |- obind ?m _ = _ -> _ =>
        destruct m as [[p1 fb]|] eqn:E1; [|discriminate]
    end.
    cbv beta iota delta [obind].
    match goal with
    | |- match ?m with _ => _ end = _ -> _ =>
        destruct m as [p2|]; [|discriminate]
    end.
    intros H. inversion H; subst; clear H. cbn.
    split; [|reflexivity].
    destruct (Msg.Error r); unfold obind, deref in E1;
      repeat match type of E1 with
             | context [match ?x with _ => _ end] => destruct x
             end; inversion E1; subst; cbn; rewrite ?andb_true_r; reflexivity.
  - intros H.
    destruct (respondV2_error_shape r out Hge H)
      as (p & _ & _ & _ & Hres & Hsp & _).
    rewrite Hsp. split; [|lia].
    rewrite !andb_false_r, app_nil_r. reflexivity.
Qed.

(** The protocol result of a completed [respondV2], in terms of the
    protocol result it started from. *)
Lemma respondV2_protocol (r : Msg.Result) (out : Rendered) :
  respondV2 r = Done out ->
  exists p,
    protocol out = Some p /\
    Proto.Section p = Msg.Section r /\
    Proto.Action p = Msg.Action r /\
    Proto.StatusCode p = Msg.Code r /\
    Proto.Errors p =
      match Msg.Error r with
      | Some e => option_map (fun s => append s [e])
                             (Proto.Errors (constructed r))
      | None => Proto.Errors (constructed r)
      end /\
    Proto.Configurations p =
      (if 400 <=? Msg.Code r then Some nil_slice
       else option_map omitempty
              (if rendersConfigurations (Msg.Section r)
               then option_map (fun s => append s (Msg.Configuration r))
                               (Proto.Configurations (constructed r))
               else Proto.Configurations (constructed r))) /\
    Proto.Registrations p =
      (if 400 <=? Msg.Code r then Some nil_slice
       else option_map omitempty
              (if rendersRegistrations (Msg.Section r)
               then option_map (fun s => append s (Msg.Registration r))
                               (Proto.Registrations (constructed r))
               else Proto.Registrations (constructed r))) /\
    (Msg.Error r <> None -> Proto.Errors (constructed r) <> None) /\
    (rendersConfigurations (Msg.Section r) = true ->
     Proto.Configurations (constructed r) <> None) /\
    (rendersRegistrations (Msg.Section r) = true ->
     Proto.Registrations (constructed r) <> None).
Proof.
  unfold respondV2, constructed, omitempty, obind, deref.
  destruct (Msg.Section r); cbn; destruct (Msg.Error r); cbn;
    repeat (break_innermost; cbn; try discriminate);
    intros H; inversion H; subst; clear H; cbn;
    eexists; repeat split; cbn;
    repeat match goal with
           | H : _ = _ |- _ => rewrite H; cbn
           end; try reflexivity; try congruence.
Qed.

Lemma elems_omitempty {A} (s : slice A) : elems (omitempty s) = elems s.
Proof.
  unfold omitempty, len.
  destruct (elems s) eqn:E; cbn; [reflexivity|exact E].
Qed.

Lemma elems_append {A} (s : slice A) (l : list A) :
  elems (append s l) = elems s ++ l.
Proof.
  destruct l; cbn; [rewrite app_nil_r; reflexivity|reflexivity].
Qed.

Lemma omitempty_nil {A} (s : slice A) :
  elems (omitempty s) = [] -> omitempty s = nil_slice.
Proof.
  unfold omitempty, len.
  destruct (elems s) eqn:E; cbn; [reflexivity|].
  intros H. rewrite E in H. discriminate H.
Qed.

(** X1. A completed [respondV2] starts a deployment feedback call exactly
    when SendDeploymentFeedback is set, to the result's FeedbackURL; its
    token is [success] when the result has no error and a status below
    400, and [failed] otherwise. *)
Theorem respondV2_feedback_token (r : Msg.Result) (out : Rendered) :
  respondV2 r = Done out ->
  (Msg.SendDeploymentFeedback (Msg.Flags r) = true ->
   exists token,
     In (sendSomaFeedback (Msg.FeedbackURL r) token) (spawned out)) /\
  (forall url token,
     In (sendSomaFeedback url token) (spawned out) ->
     Msg.SendDeploymentFeedback (Msg.Flags r) = true /\
     url = Msg.FeedbackURL r /\
     ((token = "success" /\ Msg.Error r = None /\ Msg.Code r < 400) \/
      (token = "failed" /\ (Msg.Error r <> None \/ 400 <= Msg.Code r)))).
Proof.
  intros H. destruct (respondV2_spawned r out H) as [Hsp _].
  rewrite Hsp. clear Hsp H.
  destruct (Msg.SendDeploymentFeedback (Msg.Flags r)); cbn.
  - split; [intros _; eexists; left; reflexivity|].
    intros url token [Hin|Hin].
    + inversion Hin; subst; clear Hin.
      split; [reflexivity|]. split; [reflexivity|].
      destruct (Msg.Error r); cbn;
        destruct (Z.ltb_spec (Msg.Code r) 400); cbn;
        try (left; repeat split; (reflexivity || assumption));
        right; split; try reflexivity;
        try (left; discriminate); right; assumption.
    + destruct (_ && _); cbn in Hin;
        [destruct Hin as [Hin|[]]; discriminate Hin|destruct Hin].
  - split; [discriminate|].
    intros url token Hin.
    destruct (_ && _); cbn in Hin;
      [destruct Hin as [Hin|[]]; discriminate Hin|destruct Hin].
Qed.

(** X2. A completed [respondV2] starts the alarm clearing call exactly
    when AlarmClearing is set and the status is below 400, whether or not
    the result carries an error; the call gets the result as it came
    in, which the renderer has not changed. *)
Theorem respondV2_alarm_clearing (r : Msg.Result) (out : Rendered) :
  respondV2 r = Done out ->
  ((exists r', In (clearCamsAlarm r') (spawned out)) <->
   (Msg.AlarmClearing (Msg.Flags r) = true /\ Msg.Code r < 400)) /\
  (forall r', In (clearCamsAlarm r') (spawned out) ->
              r' = r /\ result out = r).
Proof.
  intros H. destruct (respondV2_spawned r out H) as [Hsp Hres].
  rewrite Hsp. clear Hsp H.
  assert (Hfb : forall r' l,
             In (clearCamsAlarm r')
                ((if Msg.SendDeploymentFeedback (Msg.Flags r)
                  then [sendSomaFeedback (Msg.FeedbackURL r)
                          (if isNil (Msg.Error r) && (Msg.Code r <? 400)
                           then "success" else "failed")]
                  else []) ++ l) <-> In (clearCamsAlarm r') l).
  { intros r' l. destruct (Msg.SendDeploymentFeedback (Msg.Flags r)); cbn;
      [|tauto].
    split; [intros [Hd|Hd]; [discriminate Hd|exact Hd]|auto]. }
  split.
  - split.
    + intros [r' Hin]. apply (proj1 (Hfb _ _)) in Hin.
      destruct (Msg.AlarmClearing (Msg.Flags r)); cbn in Hin; [|destruct Hin].
      destruct (Z.ltb_spec (Msg.Code r) 400); cbn in Hin;
        [auto|destruct Hin].
    + intros [Ha Hc]. exists r. apply (proj2 (Hfb _ _)). rewrite Ha.
      apply Z.ltb_lt in Hc. rewrite Hc. left; reflexivity.
  - intros r' Hin. apply (proj1 (Hfb _ _)) in Hin.
    destruct (Msg.AlarmClearing (Msg.Flags r)); cbn in Hin; [|destruct Hin].
    destruct (Z.ltb_spec (Msg.Code r) 400); cbn in Hin; [|destruct Hin].
    destruct Hin as [Hin|[]]. inversion Hin; subst. auto.
Qed.

(** X3. The protocol result a completed [respondV2] encodes never holds
    an allocated payload list without elements: a list of
    configurations or of registrations without elements is nil. *)
Theorem respondV2_no_empty_list (r : Msg.Result) (out : Rendered)
        (p : Proto.Result) :
  respondV2 r = Done out -> protocol out = Some p ->
  (forall cs, Proto.Configurations p = Some cs -> elems cs = [] ->
              cs = nil_slice) /\
  (forall rs, Proto.Registrations p = Some rs -> elems rs = [] ->
              rs = nil_slice).
Proof.
  intros H Hp.
  destruct (respondV2_protocol r out H)
    as (p' & Hp' & _ & _ & _ & _ & Hc & Hr & _).
  rewrite Hp in Hp'. inversion Hp'; subst p'; clear Hp'.
  rewrite Hc, Hr. clear Hc Hr.
  destruct (400 <=? Msg.Code r).
  - split; intros l Hl _; inversion Hl; reflexivity.
  - split; intros l Hl He;
      match type of Hl with
      | option_map omitempty ?o = _ =>
          destruct o as [s0|]; cbn in Hl; [|discriminate Hl]
      end;
      inversion Hl; subst l; apply omitempty_nil; exact He.
Qed.

(** X4. For a status below 400 a completed [respondV2] encodes the
    payload of the section's kind in full and in order, after whatever
    the constructor put into the list, and nothing of the other kind:
    configurations for the Configuration, Deployment and Lookup sections,
    registrations for the Registration section. *)
Theorem respondV2_payload (r : Msg.Result) (out : Rendered) :
  Msg.Code r < 400 -> respondV2 r = Done out ->
  exists p,
    protocol out = Some p /\
    (if rendersConfigurations (Msg.Section r)
     then exists c0 cs,
         Proto.Configurations (constructed r) = Some c0 /\
         Proto.Configurations p = Some cs /\
         elems cs = elems c0 ++ Msg.Configuration r
     else forall cs,
         Proto.Configurations p = Some cs ->
         exists c0, Proto.Configurations (constructed r) = Some c0 /\
                    elems cs = elems c0) /\
    (if rendersRegistrations (Msg.Section r)
     then exists r0 rs,
         Proto.Registrations (constructed r) = Some r0 /\
         Proto.Registrations p = Some rs /\
         elems rs = elems r0 ++ Msg.Registration r
     else forall rs,
         Proto.Registrations p = Some rs ->
         exists r0, Proto.Registrations (constructed r) = Some r0 /\
                    elems rs = elems r0).
Proof.
  intros Hcode H.
  destruct (respondV2_protocol r out H)
    as (p & Hp & _ & _ & _ & _ & Hc & Hr & _ & Hac & Har).
  apply Z.leb_gt in Hcode. rewrite Hcode in Hc, Hr.
  exists p. split; [exact Hp|]. split.
  - destruct (rendersConfigurations (Msg.Section r)).
    + destruct (Proto.Configurations (constructed r)) as [c0|];
        [|exfalso; apply Hac; reflexivity].
      cbn in Hc. do 2 eexists. split; [reflexivity|]. split; [exact Hc|].
      rewrite elems_omitempty, elems_append. reflexivity.
    + intros cs Hcs. rewrite Hcs in Hc.
      destruct (Proto.Configurations (constructed r)) as [c0|];
        cbn in Hc; [|discriminate Hc].
      inversion Hc; subst. eexists. split; [reflexivity|].
      apply elems_omitempty.
  - destruct (rendersRegistrations (Msg.Section r)).
    + destruct (Proto.Registrations (constructed r)) as [r0|];
        [|exfalso; apply Har; reflexivity].
      cbn in Hr. do 2 eexists. split; [reflexivity|]. split; [exact Hr|].
      rewrite elems_omitempty, elems_append. reflexivity.
    + intros rs Hrs. rewrite Hrs in Hr.
      destruct (Proto.Registrations (constructed r)) as [r0|];
        cbn in Hr; [|discriminate Hr].
      inversion Hr; subst. eexists. split; [reflexivity|].
      apply elems_omitempty.
Qed.

(** X5. On every status a completed [respondV2] encodes the section, the
    action and the status code of the result unchanged; the text of the
    result's error is the last entry of the error list, also when the
    status is 400 or more and the payload is withheld; without an error
    the error list is the constructor's. *)
Theorem respondV2_records (r : Msg.Result) (out : Rendered) :
  respondV2 r = Done out ->
  exists p,
    protocol out = Some p /\
    Proto.Section p = Msg.Section r /\
    Proto.Action p = Msg.Action r /\
    Proto.StatusCode p = Msg.Code r /\
    match Msg.Error r with
    | Some e =>
        exists e0 es,
          Proto.Errors (constructed r) = Some e0 /\
          Proto.Errors p = Some es /\ elems es = elems e0 ++ [e]
    | None => Proto.Errors p = Proto.Errors (constructed r)
    end.
Proof.
  intros H.
  destruct (respondV2_protocol r out H)
    as (p & Hp & Hs & Ha & Hst & He & _ & _ & Hae & _).
  exists p. repeat (split; [assumption|]).
  destruct (Msg.Error r) as [e|]; [|exact He].
  destruct (Proto.Errors (constructed r)) as [e0|];
    [|exfalso; apply Hae; [discriminate|reflexivity]].
  cbn in He. do 2 eexists. split; [reflexivity|]. split; [exact He|].
  reflexivity.
Qed.

(** X6. On a section other than the four it knows, [respondV2] works on
    the zero protocol result, whatever the constructors are: with no
    error and a status below 400 it encodes a protocol result without
    any list, and with an error or a status of 400 or more it panics on
    a nil list. *)
Theorem respondV2_unknown_section (r : Msg.Result) (name : string) :
  Msg.Section r = Msg.SectionOther name ->
  (Msg.Error r = None -> Msg.Code r < 400 ->
   exists out,
     respondV2 r = Done out /\ result out = r /\
     protocol out =
       Some (Proto.mkResult (Msg.Code r) (Msg.Section r) (Msg.Action r)
                            None None None)) /\
  (Msg.Error r <> None \/ 400 <= Msg.Code r ->
   respondV2 r = Panicked NilDereference).
Proof.
  intros Hs. unfold respondV2. rewrite Hs. cbn. split.
  - intros He Hc. rewrite He. cbn. apply Z.leb_gt in Hc. rewrite Hc. cbn.
    eexists. split; [reflexivity|]. split; reflexivity.
  - intros [He|Hc].
    + destruct (Msg.Error r); [reflexivity|congruence].
    + apply Z.leb_le in Hc. destruct (Msg.Error r); cbn; [reflexivity|].
      rewrite Hc. reflexivity.
Qed.

(** X7. Rendering a ProtocolOne result has no side effect: whatever the
    flags of the result are, no feedback and no clearing call is
    started and the result is left as it is. *)
Theorem respond_v1_no_side_effects (r : Msg.Result) (out : Rendered) :
  Msg.Version r = Msg.ProtocolOne ->
  respond r = Done out ->
  result out = r /\ spawned out = [] /\ protocol out = None.
Proof.
  intros Hv. unfold respond. rewrite Hv. cbn.
  destruct (Msg.Section r) eqn:Hs;
    try (destruct (respondV1_done r) as [resp Hr];
         [rewrite Hs; discriminate|];
         rewrite Hr; intros H; inversion H; subst; cbn; auto).
  unfold respondV1. rewrite Hs. discriminate.
Qed.

(** X8. [respond] returns without writing anything to the response
    exactly for a version other than 0, 1 and 2, and for a ProtocolOne
    result that is not a list or a remove on the Configuration section;
    a ProtocolTwo result always gets a response. *)
Theorem respond_nothing_written (r : Msg.Result) (out : Rendered) :
  respond r = Done out ->
  (response out = NothingWritten <->
   ((Msg.Version r <> Msg.ProtocolOne /\ Msg.Version r <> Msg.ProtocolTwo) \/
    (Msg.Version r = Msg.ProtocolOne /\
     (Msg.Section r <> Msg.SectionConfiguration \/
      (Msg.Action r <> Msg.ActionList /\
       Msg.Action r <> Msg.ActionRemove))))).
Proof.
  unfold respond, Msg.ProtocolInvalid, Msg.ProtocolOne, Msg.ProtocolTwo.
  destruct (Z.eqb_spec (Msg.Version r) 0) as [V0|V0]; [discriminate|].
  destruct (Z.eqb_spec (Msg.Version r) 1) as [V1|V1].
  - unfold respondV1.
    destruct (Msg.Section r); try discriminate;
      try (intros H; inversion H; subst; cbn;
           split; [intros _; right; split; [assumption|left; discriminate]
                  |reflexivity]).
    destruct (Msg.Action r);
      try (intros H; inversion H; subst; cbn;
           split; [intros _; right; split;
                   [assumption|right; split; discriminate]
                  |reflexivity]).
    + destruct (Msg.Error r);
        repeat match goal with
               | |- context [if ?b then _ else _] => destruct b
               end;
        intros H; inversion H; subst; cbn;
        (split; [discriminate|]);
        intros [[? _]|[_ [Hn|[_ Hn]]]]; congruence.
    + destruct (ExportV1ConfigurationList r) as [[code errstr] l].
      destruct (marshalV1List l);
        intros H; inversion H; subst; cbn;
        (split; [discriminate|]);
        intros [[? _]|[_ [Hn|[Hn _]]]]; congruence.
  - destruct (Z.eqb_spec (Msg.Version r) 2) as [V2|V2].
    + intros H.
      destruct (respondV2_protocol r out H) as (p & Hp & _).
      revert H. unfold respondV2, obind.
      repeat match goal with
             | |- match ?m with _ => _ end = _ -> _ =>
                 destruct m as [?|]; [|discriminate]
             | |- (let '(_, _) := ?x in _) = _ -> _ => destruct x
             end.
      intros H. inversion H; subst; cbn.
      split; [destruct (marshalResult _); discriminate|].
      intros [[_ ?]|[? _]]; congruence.
    + intros H. inversion H; subst; cbn.
      split; [intros _; left; split; assumption|reflexivity].
Qed.

End RendererMore.

(** ** The write handler: transactions, payload, statements *)

Section WorkerMore.

Context {codec : TimeCodec}.

(** X9. An add, update or remove answers OK only after a successful
    commit: the transaction was opened first, the commit is the last
    thing done and the only event that ends the transaction, and nothing
    was rolled back. *)
Theorem process_ok_committed (w : World) (q : Request) (f : flow unit)
        (s : St) :
  transactional (ReqAction q) = true ->
  process w q = (f, s) ->
  Msg.Code (mr s) = Msg.ResultOK ->
  Begin w = None /\ Commit w = None /\
  hd_error (log s) = Some EvBegin /\
  last (log s) EvBegin = EvCommit /\
  filter closes (log s) = [EvCommit].
Proof.
  unfold process.
  destruct (ReqAction q); try discriminate; intros _;
    unfold add, remove, update; run_handler;
    repeat (break_innermost; cbn);
    intros H; inversion H; subst; cbn; intros Hc; try discriminate Hc;
    repeat split; try reflexivity; try assumption.
Qed.

(** X10. Whenever [process] replies, a transaction that was opened has
    been ended exactly once, by the last thing the handler did, and it
    was opened first; and without an open transaction nothing is
    committed or rolled back. *)
Theorem process_transactions_closed (w : World) (q : Request) (s : St) :
  process w q = (Next tt, s) ->
  if existsb opens (log s) && isNil (Begin w)
  then hd_error (log s) = Some EvBegin /\
       exists e, filter closes (log s) = [e] /\ last (log s) EvBegin = e
  else filter closes (log s) = [].
Proof.
  intros H. run_process H;
    repeat match goal with
           | H : Begin w = _ |- _ => rewrite H; cbn
           end;
    try reflexivity;
    (split; [reflexivity|eexists; split; reflexivity]).
Qed.

(** X11. [add] gets to its end only on the committed path, and then
    reports exactly one configuration: the request's with the lookup
    hash as lookup ID, the activation read from the database, and a
    single Data element, the first of the request with the drawn ID and
    the rollout meta information; further Data elements of the request
    are dropped.  On every other path the payload of the result is left
    as it was. *)
Theorem add_payload (w : World) (s s' : St) (f : flow unit) :
  add w s = (f, s') ->
  match f with
  | Next _ =>
      exists id d0 rest activatedAt,
        NewV4 w = Ok id /\
        V2.Data_ (ReqConfiguration (req s)) = d0 :: rest /\
        Commit w = None /\
        ((ActivationGet w (V2.ID (ReqConfiguration (req s))) = ErrNoRows /\
          activatedAt = "never") \/
         (exists t,
            ActivationGet w (V2.ID (ReqConfiguration (req s))) = Row t /\
            activatedAt = RFC3339Milli t)) /\
        mr s' =
          OK (Msg.set_Configuration (mr s)
                (Msg.Configuration (mr s) ++
                 [rolledOut w (req s) id d0 activatedAt]))
  | _ => Msg.Configuration (mr s') = Msg.Configuration (mr s)
  end.
Proof.
  intros H. unfold add in H. run_handler_in H.
  repeat (break_innermost_in H; cbn in H);
    inversion H; subst; clear H; cbn; try reflexivity;
    do 4 eexists; (split; [reflexivity|]); (split; [reflexivity|]);
    (split; [reflexivity|]); (split; [|reflexivity]);
    first [left; split; reflexivity
          |right; eexists; split; reflexivity].
Qed.

(** X12. What [add] stores with the data insert is the encoding made
    before the transaction: of the configuration with activation
    [unknown] and one Data element without meta information, under the
    drawn ID and valid from the rollout instant. *)
Theorem add_stored_blob (w : World) (q : Request) (f : flow unit) (s : St)
        (args : list SqlArg) :
  ReqAction q = Msg.ActionAdd ->
  process w q = (f, s) ->
  In (EvExec stmtCfgAddData args) (log s) ->
  exists id d0 rest jsonb,
    NewV4 w = Ok id /\
    V2.Data_ (ReqConfiguration q) = d0 :: rest /\
    marshalConfiguration w (normalized q id d0) = Ok jsonb /\
    args = [ArgString id; ArgString (V2.ID (ReqConfiguration q));
            ArgString (RFC3339Milli (Now w)); ArgBytes jsonb].
Proof.
  intros Ha H Hin. unfold process in H. rewrite Ha in H.
  unfold add in H. run_handler_in H.
  repeat (break_innermost_in H; cbn in H);
    inversion H; subst; clear H; cbn in Hin;
    repeat match goal with
           | H : _ \/ _ |- _ => destruct H as [H|H]
           | H : False |- _ => destruct H
           end;
    try discriminate;
    match goal with
    | H : EvExec _ _ = EvExec _ _ |- _ => inversion H; subst; clear H
    end;
    do 4 eexists; (split; [reflexivity|]); (split; [reflexivity|]);
    (split; [first [reflexivity|eassumption]|reflexivity]).
Qed.

(** X13. Whenever [add] inserts the new revision: if the configuration
    had an open revision, the statement just before the insert closes
    that revision at the rollout instant, the instant from which the new
    revision is valid; if it had none, no validity is updated. *)
Theorem add_closes_previous (w : World) (q : Request) (f : flow unit)
        (s : St) (args : list SqlArg) :
  ReqAction q = Msg.ActionAdd ->
  process w q = (f, s) ->
  In (EvExec stmtCfgAddData args) (log s) ->
  match SelectValidForUpdate w (V2.ID (ReqConfiguration q)) with
  | Row (previousDataID, validFrom) =>
      nth_error args 2 = Some (ArgString (RFC3339Milli (Now w))) /\
      exists before after,
        log s =
          before ++
          EvExec stmtCfgDataUpdateValidity
                 [ArgString (RFC3339Milli validFrom);
                  ArgString (RFC3339Milli (Now w));
                  ArgString previousDataID]
          :: EvExec stmtCfgAddData args :: after
  | ErrNoRows =>
      forall a, ~ In (EvExec stmtCfgDataUpdateValidity a) (log s)
  | QueryErr _ => False
  end.
Proof.
  intros Ha H Hin. unfold process in H. rewrite Ha in H.
  unfold add in H. run_handler_in H.
  repeat (break_innermost_in H; cbn in H);
    inversion H; subst; clear H; cbn in Hin;
    repeat match goal with
           | H : _ \/ _ |- _ => destruct H as [H|H]
           | H : False |- _ => destruct H
           end;
    try discriminate;
    match goal with
    | H : EvExec _ _ = EvExec _ _ |- _ => inversion H; subst; clear H
    end; cbn.
  all: try (split; [reflexivity|];
            eexists [_; _; _; _]; eexists; reflexivity).
  all: intros ? Hin';
    repeat match goal with
           | H : _ \/ _ |- _ => destruct H as [H|H]
           | H : False |- _ => destruct H
           end; discriminate.
Qed.

(** X14. Registering the lookup hash and binding the configuration ID
    are idempotent for [add]: whether each of the two statements affects
    no row or one row, [add] behaves the same. *)
Theorem add_registration_idempotent (w : World) (lookup binding : Z)
        (s : St) :
  lookup = 0 \/ lookup = 1 ->
  binding = 0 \/ binding = 1 ->
  add (withRegistrationRows w lookup binding) s =
  add (withRegistrationRows w 1 1) s.
Proof.
  intros [Hl|Hl] [Hb|Hb]; subst; unfold add; run_handler;
    repeat (break_innermost; cbn; try reflexivity).
Qed.

(** X15. A remove of a configuration without an active revision runs no
    statement: the empty transaction is committed, the result has no
    payload and is OK, or the server error of a failing commit. *)
Theorem remove_no_active_revision (w : World) (s : St) :
  Begin w = None ->
  CfgLoadActive w (req s) = ErrNoRows ->
  remove w s =
    (Returned,
     mkSt (match Commit w with
           | None => OK (mr s)
           | Some err => ServerError err (mr s)
           end)
          (req s)
          (log s ++ [EvBegin;
                     EvCfgLoadActive (V2.ID (ReqConfiguration (req s)));
                     EvCommit])
          (sent s)).
Proof.
  intros Hb Hl. unfold remove. run_handler.
  rewrite Hb; cbn. rewrite Hl; cbn.
  destruct (String.eqb _ _); cbn;
    destruct (Commit w); cbn; rewrite <- ?app_assoc; reflexivity.
Qed.

(** X16. A remove with TaskDelete at transaction time T, on an open
    revision and with a database that accepts the statements: there is
    no grace window, the revision ends at T; it is deprovisioned at the
    earlier of T and the stored DeprovisionedAt as the codec reads it,
    and the provisioning record is finalized at that instant with task
    delete, also when AlarmClearing is set. *)
Theorem remove_delete (w : World) (s : St) (cfg : V2.Configuration)
        (data : V2.Data) (rest : list V2.Data) :
  let q := req s in
  let T := Now w in
  let D0 := ParseProvision (V2.DeprovisionedAt (V2.Info data)) in
  let dp := if Before D0 T then D0 else T in
  let info' :=
    set_DeprovisionedAt
      (set_ValidUntil (V2.Info data) (FormatValidity T))
      (FormatProvision dp) in
  let cfg' := set_Data cfg (set_Info data info' :: rest) in
  let setValidity :=
    [ArgString (RFC3339Milli (ParseValidity (V2.ValidFrom (V2.Info data))));
     ArgString (RFC3339Milli (ParseValidity (FormatValidity T)));
     ArgString (V2.DataID data)] in
  let finalize :=
    [ArgString (V2.DataID data); ArgString (RFC3339Milli dp);
     ArgString Msg.TaskDelete] in
  let reset := [ArgString (V2.ID (ReqConfiguration q))] in
  ConfigurationTask q = Msg.TaskDelete ->
  CfgLoadActive w q = Row cfg ->
  V2.Data_ cfg = data :: rest ->
  Equal PosTimeInf (ParseValidity (V2.ValidUntil (V2.Info data))) = true ->
  Begin w = None ->
  Exec w stmtCfgDataUpdateValidity setValidity = Ok 1 ->
  Exec w stmtProvFinalize finalize = Ok 1 ->
  (Msg.ResetActivation (ReqFlags q) = true ->
   Exec w stmtActivationDel reset = Ok 0 \/
   Exec w stmtActivationDel reset = Ok 1) ->
  Commit w = None ->
  dp = Z.min T D0 /\
  remove w s =
    (Returned,
     mkSt (OK (Msg.set_Configuration (mr s)
                 (Msg.Configuration (mr s) ++ [cfg'])))
          q
          (log s ++
           [EvBegin; EvCfgLoadActive (V2.ID (ReqConfiguration q));
            EvExec stmtCfgDataUpdateValidity setValidity;
            EvExec stmtProvFinalize finalize] ++
           (if Msg.ResetActivation (ReqFlags q)
            then [EvExec stmtActivationDel reset] else []) ++
           [EvCommit])
          (sent s)).
Proof.
  intros q T D0 dp info' cfg' setValidity finalize reset
         Hdel Hload Hdata Hinf Hbegin Hset Hfin Hreset Hcommit.
  split.
  { subst dp. unfold Before. destruct (Z.ltb_spec D0 T); lia. }
  subst q T info' cfg' setValidity finalize reset dp D0.
  unfold remove. run_handler. cbn in Hset, Hfin, Hreset.
  rewrite Hdel, Hbegin; cbn. rewrite Hload; cbn. rewrite Hdata; cbn.
  rewrite Hinf; cbn.
  unfold Msg.TaskDelete in *.
  destruct (Before _ _); cbn;
    rewrite Hset; cbn; rewrite Hfin; cbn;
    (destruct (Msg.ResetActivation (ReqFlags (req s))); cbn;
     [destruct (Hreset eq_refl) as [Hr|Hr]; rewrite Hr; cbn|]);
    rewrite Hcommit; cbn; rewrite <- ?app_assoc; reflexivity.
Qed.

(** X17. A remove that finds a revision which is already expiring, its
    ValidUntil not positive infinity, keeps that ValidUntil, with or
    without TaskDelete and whatever the database answers afterwards: the
    revision is reported with it and the validity statement writes it. *)
Theorem remove_keeps_expiry (w : World) (s : St) (cfg : V2.Configuration)
        (data : V2.Data) (rest : list V2.Data) :
  let q := req s in
  let T := Now w in
  let U0 := ParseValidity (V2.ValidUntil (V2.Info data)) in
  let D0 := ParseProvision (V2.DeprovisionedAt (V2.Info data)) in
  let s' := snd (remove w s) in
  Begin w = None ->
  CfgLoadActive w q = Row cfg ->
  V2.Data_ cfg = data :: rest ->
  Equal PosTimeInf U0 = false ->
  Msg.Configuration (mr s') =
    Msg.Configuration (mr s) ++
    [set_Data cfg
       (set_Info data
          (set_DeprovisionedAt
             (set_ValidUntil (V2.Info data) (FormatValidity U0))
             (FormatProvision (if Before D0 T then D0 else T))) :: rest)] /\
  In (EvExec stmtCfgDataUpdateValidity
        [ArgString (RFC3339Milli (ParseValidity (V2.ValidFrom (V2.Info data))));
         ArgString (RFC3339Milli (ParseValidity (FormatValidity U0)));
         ArgString (V2.DataID data)])
     (log s').
Proof.
  intros q T U0 D0 s' Hbegin Hload Hdata Hopen.
  subst q s'.
  unfold remove. run_handler.
  rewrite Hbegin; cbn. rewrite Hload; cbn. rewrite Hdata; cbn.
  fold T U0 D0. rewrite Hopen; cbn.
  split.
  - destruct (String.eqb (ConfigurationTask (req s)) Msg.TaskDelete); cbn;
      repeat (break_innermost; cbn; try reflexivity).
  - destruct (String.eqb (ConfigurationTask (req s)) Msg.TaskDelete); cbn;
      repeat (break_innermost; cbn);
      rewrite <- ?app_assoc; apply in_or_app; right; cbn; tauto.
Qed.

(** X18. [remove] panics only on the index into an empty Data list of
    the loaded configuration, and then with the transaction open: it was
    begun, the load is the only thing done in it, and it is neither
    committed nor rolled back; the result is untouched. *)
Theorem remove_panic_open_transaction (w : World) (s s' : St)
        (p : PanicReason) :
  remove w s = (Panic p, s') ->
  p = IndexOutOfRange /\
  Begin w = None /\
  (exists c, CfgLoadActive w (req s) = Row c /\ V2.Data_ c = []) /\
  log s' =
    log s ++ [EvBegin; EvCfgLoadActive (V2.ID (ReqConfiguration (req s)))] /\
  mr s' = mr s /\ sent s' = sent s.
Proof.
  intros H. unfold remove in H. run_handler_in H.
  repeat (break_innermost_in H; cbn in H);
    inversion H; subst; clear H; cbn.
  all: rewrite <- ?app_assoc; cbn; repeat split; eauto.
Qed.

(** X19. [activate] runs exactly one statement, the activation of the
    request's configuration ID, outside of any transaction; it does not
    panic and leaves the request alone; the payload of the result grows
    by at most the request's configuration, and only when the statement
    did not fail. *)
Theorem activate_single_statement (w : World) (s s' : St) (f : flow unit) :
  activate w s = (f, s') ->
  log s' =
    log s ++ [EvExec stmtActivationSet
                     [ArgString (V2.ID (ReqConfiguration (req s)))]] /\
  req s' = req s /\ sent s' = sent s /\
  (forall p, f <> Panic p) /\
  (Msg.Configuration (mr s') = Msg.Configuration (mr s) \/
   (Msg.Configuration (mr s') =
      Msg.Configuration (mr s) ++ [ReqConfiguration (req s)] /\
    exists rows,
      Exec w stmtActivationSet
           [ArgString (V2.ID (ReqConfiguration (req s)))] = Ok rows)).
Proof.
  intros H. unfold activate in H. run_handler_in H.
  repeat (break_innermost_in H; cbn in H);
    inversion H; subst; clear H; cbn;
    repeat split; try discriminate; auto.
  right. split; [reflexivity|]. eexists; reflexivity.
Qed.

(** X20. A remove that fails after the active revision was loaded
    replies with a result that is an error of status 400 or more and
    still carries the loaded configuration; [respondV2] withholds it:
    the protocol result of such a reply has no configuration and no
    registration, while the result keeps its payload. *)
Theorem failed_remove_not_leaked (w : World) (q : Request) (s : St)
        (cfg : V2.Configuration) (data : V2.Data) (rest : list V2.Data) :
  ReqAction q = Msg.ActionRemove ->
  Begin w = None ->
  CfgLoadActive w q = Row cfg ->
  V2.Data_ cfg = data :: rest ->
  process w q = (Next tt, s) ->
  Msg.Code (mr s) <> Msg.ResultOK ->
  sent s = [mr s] /\
  List.length (Msg.Configuration (mr s)) = 1%nat /\
  400 <= Msg.Code (mr s) /\
  forall (deps : RestDeps) (out : Rendered),
    respondV2 (mr s) = Done out ->
    exists p,
      protocol out = Some p /\
      Proto.Configurations p = Some nil_slice /\
      Proto.Registrations p = Some nil_slice /\
      Msg.Configuration (result out) = Msg.Configuration (mr s).
Proof.
  intros Ha Hb Hl Hd H Hcode.
  assert (Hs : sent s = [mr s] /\
               List.length (Msg.Configuration (mr s)) = 1%nat /\
               400 <= Msg.Code (mr s)).
  { unfold process in H. rewrite Ha in H. unfold remove in H.
    run_handler_in H. rewrite Hb in H; cbn in H. rewrite Hl in H; cbn in H.
    rewrite Hd in H; cbn in H.
    repeat (break_innermost_in H; cbn in H);
      inversion H; subst; clear H; cbn in *;
      try (exfalso; apply Hcode; reflexivity);
      unfold Msg.ResultServerError; repeat split; lia. }
  destruct Hs as (Hs1 & Hs2 & Hs3). repeat (split; [assumption|]).
  intros deps out Hr.
  destruct (respondV2_error_shape (mr s) out Hs3 Hr)
    as (p & Hp & Hc & Hrg & Hres & _).
  exists p. repeat (split; [assumption|]).
  rewrite Hres. reflexivity.
Qed.

(** X21. A configuration that cannot be encoded never reaches the
    database: [update] and [add] answer with the encoder's error as a
    server error without opening a transaction.  [add] has by then
    rewritten the configuration of the request it was handed. *)
Theorem encoding_failure_no_database (w : World) (q : Request)
        (err : string) :
  (ReqAction q = Msg.ActionUpdate ->
   marshalConfiguration w (ReqConfiguration q) = Err err ->
   process w q =
     (Next tt,
      mkSt (ServerError err (FromRequest q)) q []
           [ServerError err (FromRequest q)])) /\
  (forall id d0 rest,
     ReqAction q = Msg.ActionAdd ->
     NewV4 w = Ok id ->
     V2.Data_ (ReqConfiguration q) = d0 :: rest ->
     marshalConfiguration w (normalized q id d0) = Err err ->
     process w q =
       (Next tt,
        mkSt (ServerError err (FromRequest q))
             (set_ReqConfiguration q (normalized q id d0)) []
             [ServerError err (FromRequest q)])).
Proof.
  split.
  - intros Ha Hm. unfold process. rewrite Ha. unfold update. run_handler.
    rewrite Hm. reflexivity.
  - intros id d0 rest Ha Hu Hd Hm. unfold process. rewrite Ha.
    unfold add. run_handler. rewrite Hu; cbn. rewrite Hd; cbn.
    unfold normalized in Hm.
    unfold set_Data, set_ActivatedAt, set_LookupID, set_Info, set_DataID.
    cbn. rewrite Hm. reflexivity.
Qed.

(** X22. No handler changes what identifies the request: after
    [process] the request has its action, lookup hash, task and flags,
    and its configuration the same ID, host and metric; only [add]
    writes to the request at all. *)
Theorem process_request_preserved (w : World) (q : Request) (f : flow unit)
        (s : St) :
  process w q = (f, s) ->
  (ReqAction q <> Msg.ActionAdd -> req s = q) /\
  ReqAction (req s) = ReqAction q /\
  LookupHash (req s) = LookupHash q /\
  ConfigurationTask (req s) = ConfigurationTask q /\
  ReqFlags (req s) = ReqFlags q /\
  V2.ID (ReqConfiguration (req s)) = V2.ID (ReqConfiguration q) /\
  V2.HostID (ReqConfiguration (req s)) = V2.HostID (ReqConfiguration q) /\
  V2.Metric (ReqConfiguration (req s)) = V2.Metric (ReqConfiguration q).
Proof.
  intros H. run_process H;
    repeat match goal with
           | H : ReqAction q = _ |- _ => rewrite H
           end;
    repeat split; try reflexivity; try congruence.
Qed.

End WorkerMore.

(** ** Runs of the further properties *)

(** Witness of X1. *)
Lemma respondV2_feedback_token_witness :
  exists token,
    In (sendSomaFeedback "http://soma/feedback" token)
       (spawned (More.rendered More.succeeded)).
Proof.
  apply (proj1 (@respondV2_feedback_token Sample.deps More.succeeded
                  (More.rendered More.succeeded) eq_refl)).
  reflexivity.
Defined.

(** Witness of X2. *)
Lemma respondV2_alarm_clearing_witness :
  exists r', In (clearCamsAlarm r') (spawned (More.rendered More.succeeded)).
Proof.
  apply (proj2 (proj1 (@respondV2_alarm_clearing Sample.deps More.succeeded
                         (More.rendered More.succeeded) eq_refl))).
  split; reflexivity.
Defined.

(** Witness of X3. *)
Lemma respondV2_no_empty_list_witness :
  exists cs,
    Proto.Configurations (More.protocolOf More.emptyOK) = Some cs /\
    cs = nil_slice.
Proof.
  exists nil_slice. split; [reflexivity|].
  apply (proj1 (@respondV2_no_empty_list Sample.deps More.emptyOK
                  (More.rendered More.emptyOK)
                  (More.protocolOf More.emptyOK) eq_refl eq_refl));
    reflexivity.
Defined.

(** Witness of X4. *)
Lemma respondV2_payload_witness :
  exists p cs,
    protocol (More.rendered More.succeeded) = Some p /\
    Proto.Configurations p = Some cs /\
    elems cs = [] ++ [Sample.config1].
Proof.
  destruct (@respondV2_payload Sample.deps More.succeeded
              (More.rendered More.succeeded) eq_refl eq_refl)
    as (p & Hp & Hc & _).
  cbn in Hc. destruct Hc as (c0 & cs & Hc0 & Hcs & He).
  inversion Hc0; subst c0.
  exists p, cs. auto.
Defined.

(** Witness of X5. *)
Lemma respondV2_records_witness :
  exists p es,
    protocol (More.rendered Sample.failed) = Some p /\
    Proto.StatusCode p = 500 /\
    Proto.Errors p = Some es /\ elems es = [] ++ ["insert failed"].
Proof.
  destruct (@respondV2_records Sample.deps Sample.failed
              (More.rendered Sample.failed) eq_refl)
    as (p & Hp & _ & _ & Hst & He).
  cbn in He. destruct He as (e0 & es & He0 & Hes & Hel).
  inversion He0; subst e0.
  exists p, es. auto.
Defined.

(** Witness of X6. *)
Lemma respondV2_unknown_section_witness :
  exists out,
    @respondV2 Sample.deps More.strange = Done out /\
    result out = More.strange /\
    protocol out =
      Some (Proto.mkResult 200 (Msg.SectionOther "audit") Msg.ActionList
                           None None None).
Proof.
  apply (proj1 (@respondV2_unknown_section Sample.deps More.strange "audit"
                  eq_refl));
    reflexivity.
Defined.

(** Witness of X7. *)
Lemma respond_v1_no_side_effects_witness :
  exists out,
    @respond Sample.deps More.addedV1 = Done out /\
    result out = More.addedV1 /\ spawned out = [] /\ protocol out = None.
Proof.
  eexists. split; [vm_compute; reflexivity|].
  apply (@respond_v1_no_side_effects Sample.deps More.addedV1);
    reflexivity.
Defined.

(** Witness of X8. *)
Lemma respond_nothing_written_witness :
  exists out,
    @respond Sample.deps More.addedV1 = Done out /\
    response out = NothingWritten.
Proof.
  eexists. split; [vm_compute; reflexivity|].
  apply (proj2 (@respond_nothing_written Sample.deps More.addedV1 _
                  eq_refl)).
  right. split; [reflexivity|]. right. split; discriminate.
Defined.

(** Witness of X9. *)
Lemma process_ok_committed_witness :
  exists s,
    @process Sample.codec (Run.healthy Sample.config1) Run.addRequest =
      (Next tt, s) /\
    hd_error (log s) = Some EvBegin /\
    last (log s) EvBegin = EvCommit /\
    filter closes (log s) = [EvCommit].
Proof.
  eexists. split; [vm_compute; reflexivity|].
  eapply (@process_ok_committed Sample.codec (Run.healthy Sample.config1)
            Run.addRequest (Next tt)).
  - reflexivity.
  - vm_compute; reflexivity.
  - reflexivity.
Defined.

(** Witness of X10. *)
Lemma process_transactions_closed_witness :
  let s := snd (@process Sample.codec Run.uncommitted Run.updateRequest) in
  hd_error (log s) = Some EvBegin /\
  exists e, filter closes (log s) = [e] /\ last (log s) EvBegin = e.
Proof.
  exact (@process_transactions_closed Sample.codec Run.uncommitted
           Run.updateRequest _ eq_refl).
Defined.

(** Witness of X11. *)
Lemma add_payload_witness :
  exists s' id d0 rest activatedAt,
    @add Sample.codec (Run.healthy Sample.config1)
         (Sample.start Run.addRequest) = (Next tt, s') /\
    V2.Data_ (ReqConfiguration Run.addRequest) = d0 :: rest /\
    mr s' =
      OK (Msg.set_Configuration (FromRequest Run.addRequest)
            ([] ++
             [@rolledOut Sample.codec (Run.healthy Sample.config1)
                         Run.addRequest id d0 activatedAt])).
Proof.
  eexists.
  assert (H : @add Sample.codec (Run.healthy Sample.config1)
                   (Sample.start Run.addRequest) = (Next tt, _))
    by (vm_compute; reflexivity).
  destruct (@add_payload Sample.codec (Run.healthy Sample.config1)
              (Sample.start Run.addRequest) _ (Next tt) H)
    as (id & d0 & rest & act & _ & Hd & _ & _ & Hmr).
  exists id, d0, rest, act. split; [exact H|]. split; [exact Hd|exact Hmr].
Defined.

(** Witness of X12. *)
Lemma add_stored_blob_witness :
  exists id d0 rest jsonb,
    NewV4 (Run.healthy Sample.config1) = Ok id /\
    V2.Data_ (ReqConfiguration Run.addRequest) = d0 :: rest /\
    marshalConfiguration (Run.healthy Sample.config1)
                         (normalized Run.addRequest id d0) = Ok jsonb /\
    [ArgString "d-2"; ArgString "c-1"; ArgString "2018-06-01T12:00:00.000Z";
     ArgBytes "c-1"] =
    [ArgString id; ArgString (V2.ID (ReqConfiguration Run.addRequest));
     ArgString (@RFC3339Milli Sample.codec
                  (Now (Run.healthy Sample.config1)));
     ArgBytes jsonb].
Proof.
  eapply (@add_stored_blob Sample.codec (Run.healthy Sample.config1)
            Run.addRequest (Next tt)).
  - reflexivity.
  - vm_compute; reflexivity.
  - cbn. do 4 right. left. reflexivity.
Defined.

(** Witness of X13: the second add of a configuration. *)
Lemma add_closes_previous_witness :
  exists s before after,
    @process Sample.codec More.revised Run.addRequest = (Next tt, s) /\
    log s =
      before ++
      EvExec stmtCfgDataUpdateValidity
             [ArgString "2018-06-01T12:00:00.000Z";
              ArgString "2018-06-01T13:00:00.000Z"; ArgString "d-1"]
      :: EvExec stmtCfgAddData
                [ArgString "d-2"; ArgString "c-1";
                 ArgString "2018-06-01T13:00:00.000Z"; ArgBytes "c-1"]
      :: after.
Proof.
  pose (s := snd (@process Sample.codec More.revised Run.addRequest)).
  assert (H : @process Sample.codec More.revised Run.addRequest =
              (Next tt, s)) by (vm_compute; reflexivity).
  assert (Hin : In (EvExec stmtCfgAddData
                      [ArgString "d-2"; ArgString "c-1";
                       ArgString "2018-06-01T13:00:00.000Z"; ArgBytes "c-1"])
                   (log s))
    by (vm_compute; do 5 right; left; reflexivity).
  pose proof (@add_closes_previous Sample.codec More.revised Run.addRequest
                (Next tt) s _ eq_refl H Hin) as Hc.
  hnf in Hc. destruct Hc as (_ & before & after & Hlog).
  exists s, before, after. split; [exact H|exact Hlog].
Defined.

(** Witness of X14. *)
Lemma add_registration_idempotent_witness :
  @add Sample.codec (withRegistrationRows Run.unwritten 0 0)
       (Sample.start Run.addRequest) =
  @add Sample.codec (withRegistrationRows Run.unwritten 1 1)
       (Sample.start Run.addRequest).
Proof.
  apply (@add_registration_idempotent Sample.codec); left; reflexivity.
Defined.

(** Witness of X15. *)
Lemma remove_no_active_revision_witness :
  @remove Sample.codec (Sample.world Sample.noon 1 ErrNoRows None)
          (Sample.start Run.removeRequest) =
    (Returned,
     mkSt (OK (FromRequest Run.removeRequest)) Run.removeRequest
          ([] ++ [EvBegin; EvCfgLoadActive "c-1"; EvCommit]) []).
Proof.
  exact (@remove_no_active_revision Sample.codec
           (Sample.world Sample.noon 1 ErrNoRows None)
           (Sample.start Run.removeRequest) eq_refl eq_refl).
Defined.

(** Witness of X16: delete with every flag set, with the sentinels as
    the specification reads them. *)
Lemma remove_delete_witness :
  exists s,
    @remove Sentinels.codec (Run.healthy Sample.config1)
            (Sample.start More.deleteRequest) = (Returned, s) /\
    In (EvExec stmtProvFinalize
               [ArgString "d-1";
                ArgString (@RFC3339Milli Sentinels.codec Sentinels.negTimeInf);
                ArgString "delete"])
       (log s).
Proof.
  eexists. split.
  - apply (@remove_delete Sentinels.codec (Run.healthy Sample.config1)
             (Sample.start More.deleteRequest)
             Sample.config1 Sample.data1 []);
      try reflexivity.
    intros _. right. reflexivity.
  - vm_compute. do 3 right. left. reflexivity.
Defined.

(** Witness of X17: delete at noon of the revision that expires at a
    quarter past one. *)
Lemma remove_keeps_expiry_witness :
  exists c d,
    Msg.Configuration
      (mr (snd (@remove Sample.codec (Run.healthy Sample.config2)
                        (Sample.start More.deleteRequest)))) = [c] /\
    V2.Data_ c = [d] /\
    V2.ValidUntil (V2.Info d) = "2018-06-01T13:15:00.000Z".
Proof.
  destruct (@remove_keeps_expiry Sample.codec (Run.healthy Sample.config2)
              (Sample.start More.deleteRequest)
              Sample.config2 Sample.data2 []
              eq_refl eq_refl eq_refl eq_refl) as [Hc _].
  do 2 eexists. split; [exact Hc|]. split; reflexivity.
Defined.

(** Witness of X18. *)
Lemma remove_panic_open_transaction_witness :
  log (snd (@remove Sample.codec
                    (Run.healthy (set_Data Sample.config1 []))
                    (Sample.start Run.removeRequest))) =
    [] ++ [EvBegin; EvCfgLoadActive "c-1"].
Proof.
  apply (@remove_panic_open_transaction Sample.codec
           (Run.healthy (set_Data Sample.config1 []))
           (Sample.start Run.removeRequest) _ IndexOutOfRange eq_refl).
Defined.

(** Witness of X19. *)
Lemma activate_single_statement_witness :
  log (snd (activate (Run.healthy Sample.config1)
                     (Sample.start More.activateRequest))) =
    [] ++ [EvExec stmtActivationSet [ArgString "c-1"]].
Proof.
  apply (activate_single_statement (Run.healthy Sample.config1)
           (Sample.start More.activateRequest) _ (Next tt) eq_refl).
Defined.

(** Witness of X20: the validity update hits a deadlock. *)
Lemma failed_remove_not_leaked_witness :
  let s := snd (@process Sample.codec More.frozen Run.removeRequest) in
  sent s = [mr s] /\
  List.length (Msg.Configuration (mr s)) = 1%nat /\
  400 <= Msg.Code (mr s) /\
  forall (deps : RestDeps) (out : Rendered),
    respondV2 (mr s) = Done out ->
    exists p,
      protocol out = Some p /\
      Proto.Configurations p = Some nil_slice /\
      Proto.Registrations p = Some nil_slice /\
      Msg.Configuration (result out) = Msg.Configuration (mr s).
Proof.
  apply (@failed_remove_not_leaked Sample.codec More.frozen Run.removeRequest
           _ Sample.config1 Sample.data1 []);
    try reflexivity.
  vm_compute. discriminate.
Defined.

(** Witness of X21. *)
Lemma encoding_failure_no_database_witness :
  @process Sample.codec More.unencodable Run.updateRequest =
    (Next tt,
     mkSt (ServerError "unsupported value" (FromRequest Run.updateRequest))
          Run.updateRequest []
          [ServerError "unsupported value" (FromRequest Run.updateRequest)]).
Proof.
  exact (proj1 (@encoding_failure_no_database Sample.codec More.unencodable
                  Run.updateRequest "unsupported value")
               eq_refl eq_refl).
Defined.

(** Witness of X22. *)
Lemma process_request_preserved_witness :
  exists s,
    @process Sample.codec (Run.healthy Sample.config1) Run.addRequest =
      (Next tt, s) /\
    V2.ID (ReqConfiguration (req s)) = V2.ID (ReqConfiguration Run.addRequest).
Proof.
  eexists.
  assert (H : @process Sample.codec (Run.healthy Sample.config1)
                       Run.addRequest = (Next tt, _))
    by (vm_compute; reflexivity).
  split; [exact H|].
  apply (@process_request_preserved Sample.codec
           (Run.healthy Sample.config1) Run.addRequest (Next tt) _ H).
Defined.
